(** * Manufacturing telemetry generator: [entities/asset.py]

    A shallow embedding of the [Asset], [AssetMetric] and [AssetType]
    dataclasses and of the event synthesis they implement, together with
    the properties of the sampled readings and of the defect score.  The
    second part embeds the token replacement and the set-up functions of
    the provisioning scripts under [infra/scripts/fabric].

    Modelling conventions.
    - Python floats are modelled as exact rationals [Q]; equality of
      readings is [Qeq] ([==]).  [round(x, 2)] is round-half-to-even on
      the hundredths of the exact value.
    - The process-wide generator of the [random] module is a [RandomState]:
      a sequence of outcomes and a cursor.  [random.random()] reads a unit
      draw in [[0, 1)], [random.choice(seq)] reads an index below
      [len(seq)]; both advance the cursor.
    - [uuid.uuid4()] does not use the [random] module: it reads sixteen
      bytes from the operating system ([os.urandom]).  The [World]
      therefore carries a second, independent source.
    - Exceptions are modelled with an error result: the
      [ZeroDivisionError] of a division by a zero [DefectFactor], and the
      [IndexError] of [random.choice] on an empty sequence, which the code
      never passes. *)

From Stdlib Require Import ZArith QArith Qround Qminmax Lqa Lia.
From Stdlib Require Import String Ascii List.
From stdpp Require Import gmap strings.

Local Open Scope Z_scope.
Local Open Scope Q_scope.

(** ** Numbers: [round], [max], [min] *)

Module Num.

(** Nearest integer, ties to the even neighbour (Python's [round]). *)
Definition round_half_even (q : Q) : Z :=
  let f := Qfloor q in
  match Qcompare (q - inject_Z f) (1 # 2) with
  | Lt => f
  | Gt => (f + 1)%Z
  | Eq => if Z.even f then f else (f + 1)%Z
  end.

(** [round(x, 2)]. *)
Definition round2 (x : Q) : Q := inject_Z (round_half_even (x * 100)) * 0.01.

(** A value with at most two decimals: [c / 100] for an integer [c]. *)
Definition hundredths (c : Z) : Q := inject_Z c * 0.01.

End Num.

(** ** Exceptions, the random sources and the state monad *)

Inductive PyError : Type :=
| ZeroDivisionError
| IndexError.

Inductive Result (A : Type) : Type :=
| Ok (a : A)
| Raise (e : PyError).
Arguments Ok {A} a.
Arguments Raise {A} e.

(** The generator of the [random] module: the outcomes it will produce,
    and how many of them have been consumed. *)
Record RandomState : Type := mkRandomState {
  unit_draw : nat -> Q;
  index_draw : nat -> nat;
  cursor : nat
}.

(** Outcomes of [random.random()] lie in [[0, 1)]. *)
Definition unit_draws_ok (r : RandomState) : Prop :=
  forall i : nat, 0 <= unit_draw r i /\ unit_draw r i < 1.

(** What a call can observe and change: the [random] generator, and the
    operating system's entropy as a sequence of 16-byte reads, each given
    as the big-endian integer of its bytes. *)
Record World : Type := mkWorld {
  rng : RandomState;
  urandom16 : nat -> Z;
  urandom_reads : nat
}.

Definition M (A : Type) : Type := World -> Result (A * World).

Definition ret {A : Type} (a : A) : M A := fun w => Ok (a, w).

Definition bind {A B : Type} (c : M A) (k : A -> M B) : M B :=
  fun w =>
    match c w with
    | Ok (a, w') => k a w'
    | Raise e => Raise e
    end.

Definition lift {A : Type} (r : Result A) : M A :=
  fun w =>
    match r with
    | Ok a => Ok (a, w)
    | Raise e => Raise e
    end.

Notation "x <- c1 ;; c2" := (bind c1 (fun x => c2))
  (at level 100, c1 at next level, right associativity).

(** Replace the operating system's entropy in the world a call ends in. *)
Definition reseat {A : Type} (e : nat -> Z) (n : nat)
    (r : Result (A * World)) : Result (A * World) :=
  match r with
  | Ok (a, w') => Ok (a, mkWorld (rng w') e n)
  | Raise x => Raise x
  end.

(** A computation that neither reads nor writes the operating system's
    entropy: it runs as it does with a blank entropy source, which stays
    as it was. *)
Definition rng_only {A : Type} (c : M A) : Prop :=
  forall (r : RandomState) (e : nat -> Z) (n : nat),
    c (mkWorld r e n) = reseat e n (c (mkWorld r (fun _ => 0%Z) 0%nat)).

Module Random.

Definition advance (w : World) : World :=
  let r := rng w in
  mkWorld (mkRandomState (unit_draw r) (index_draw r) (S (cursor r)))
          (urandom16 w) (urandom_reads w).

(** [random.random()] *)
Definition random : M Q :=
  fun w => Ok (unit_draw (rng w) (cursor (rng w)), advance w).

(** [random.uniform(a, b)] is [a + (b - a) * random()]. *)
Definition uniform (a b : Q) : M Q :=
  u <- random ;; ret (a + (b - a) * u).

(** [random.choice(seq)]: [IndexError] on an empty sequence, otherwise the
    element at an index below [len(seq)]. *)
Definition choice {A : Type} (seq : list A) : M A :=
  fun w =>
    let k := (index_draw (rng w) (cursor (rng w)) mod length seq)%nat in
    match nth_error seq k with
    | Some x => Ok (x, advance w)
    | None => Raise IndexError
    end.

End Random.

Module Uuid.

(** [UUID(bytes=os.urandom(16), version=4)]: the variant and version bits
    are overwritten in the 128-bit integer. *)
Definition uuid4_int (raw : Z) : Z :=
  let i := (raw mod 2 ^ 128)%Z in
  let i := Z.land i (Z.lnot (Z.shiftl 0xc000 48)) in
  let i := Z.lor i (Z.shiftl 0x8000 48) in
  let i := Z.land i (Z.lnot (Z.shiftl 0xf000 64)) in
  Z.lor i (Z.shiftl 4 76).

Definition hex_digit (d : Z) : ascii :=
  nth (Z.to_nat d)
      ["0"; "1"; "2"; "3"; "4"; "5"; "6"; "7";
       "8"; "9"; "a"; "b"; "c"; "d"; "e"; "f"]%char "0"%char.

(** ['%0nx' % z] for [0 <= z < 16 ^ n]. *)
Fixpoint hex (n : nat) (z : Z) (acc : string) : string :=
  match n with
  | O => acc
  | S n' => hex n' (z / 16)%Z (String (hex_digit (z mod 16)%Z) acc)
  end.

(** [str(uuid)]: the 32 hex digits grouped 8-4-4-4-12. *)
Definition str (i : Z) : string :=
  let h := hex 32 i EmptyString in
  (substring 0 8 h ++ "-" ++ substring 8 4 h ++ "-" ++ substring 12 4 h
   ++ "-" ++ substring 16 4 h ++ "-" ++ substring 20 12 h)%string.

(** [str(uuid.uuid4())] *)
Definition uuid4_str : M string :=
  fun w =>
    Ok (str (uuid4_int (urandom16 w (urandom_reads w))),
        mkWorld (rng w) (urandom16 w) (S (urandom_reads w))).

End Uuid.

(** ** [entities.event.Event] *)

(** POSIX microseconds stand for a [datetime]; the value is only stored. *)
Definition datetime : Type := Z.

Module Event.

(** Modelled from the spec: the [Event] dataclass of [entities/event.py],
    with the ten fields that [create_random_event] passes by keyword and
    that the spec lists for EventRecord. *)
Record t : Type := mk {
  Id : string;
  AssetId : string;
  ProductId : string;
  BatchId : string;
  Vibration : Q;
  Temperature : Q;
  Humidity : Q;
  Speed : Q;
  DefectProbability : Q;
  Timestamp : datetime
}.

(** Two events agree on every field other than [Id]. *)
Definition same_but_id (a b : t) : Prop :=
  AssetId a = AssetId b /\ ProductId a = ProductId b /\
  BatchId a = BatchId b /\
  Vibration a = Vibration b /\ Temperature a = Temperature b /\
  Humidity a = Humidity b /\ Speed a = Speed b /\
  DefectProbability a = DefectProbability b /\
  Timestamp a = Timestamp b.

End Event.

(** ** [Asset] *)

Module Asset.

Record t : Type := mk {
  Id : string;
  SiteId : Z;
  Name : string;
  Type_ : string;
  SerialNumber : string;
  MaintenanceStatus : string
}.

(** A value of the dictionary of [to_dict]: a [str] or an [int]. *)
Inductive DictValue : Type :=
| DStr (s : string)
| DInt (z : Z).

(** [to_dict] *)
Definition to_dict (self : t) : gmap string DictValue :=
  list_to_map
    [("Id"%string, DStr (Id self));
     ("Name"%string, DStr (Name self));
     ("SiteId"%string, DInt (SiteId self));
     ("Type"%string, DStr (Type_ self));
     ("SerialNumber"%string, DStr (SerialNumber self));
     ("MaintenanceStatus"%string, DStr (MaintenanceStatus self))].

(** [Asset.get_type_map()]: asset name to asset type name. *)
Definition get_type_map : gmap string string :=
  list_to_map
    [("Robotic Arm", "Assembly");
     ("Automated Press", "Press");
     ("Conveyor Belt", "Conveyor");
     ("Packaging Line", "Packaging")]%string.

End Asset.

(** ** [AssetMetric] *)

Module AssetMetric.

Record t : Type := mk {
  Min : Q;
  Max : Q;
  Variation : Q;
  DefectFactor : Q
}.

(** The dataclass-generated [__init__] stores its four arguments; there is
    no [__post_init__], so nothing is checked. *)
Definition init (min max variation defect_factor : Q) : Result t :=
  Ok (mk min max variation defect_factor).

(** The local [value] of [calculate_random_value] when [return] is
    reached. *)
Definition raw_value (self : t) (anomaly : bool) (variation_multiplier : Q)
  : M Q :=
  value <- Random.uniform (Min self) (Max self) ;;
  if anomaly then
    r <- Random.uniform (Variation self * 0.5) (Variation self * 1.5) ;;
    let anomaly_variation := r * variation_multiplier in
    up <- Random.choice [true; false] ;;
    if up : bool then ret (Max self + anomaly_variation)
    else ret (Min self - anomaly_variation)
  else ret value.

Definition calculate_random_value (self : t) (anomaly : bool)
    (variation_multiplier : Q) : M Q :=
  value <- raw_value self anomaly variation_multiplier ;;
  ret (Num.round2 (Qmax 0 value)).

(** Float division: a zero divisor raises. *)
Definition truediv (a b : Q) : Result Q :=
  if Qeq_bool b 0 then Raise ZeroDivisionError else Ok (a / b).

Definition calc_defect_factor (self : t) (value : Q) : Result Q :=
  match truediv (value - Max self) (DefectFactor self) with
  | Raise e => Raise e
  | Ok above =>
      match truediv (Min self - value) (DefectFactor self) with
      | Raise e => Raise e
      | Ok below => Ok (Qmax (Qmax 0 above) below)
      end
  end.

End AssetMetric.

(** ** [AssetType] *)

Module AssetType.

Record t : Type := mk {
  Name : string;
  Vibration : AssetMetric.t;
  Temperature : AssetMetric.t;
  Humidity : AssetMetric.t;
  Speed : AssetMetric.t
}.

(** The dataclass-generated [__init__], as for [AssetMetric]. *)
Definition init (name : string)
    (vibration temperature humidity speed : AssetMetric.t) : Result t :=
  Ok (mk name vibration temperature humidity speed).

(** The four metrics of an asset type. *)
Definition metrics (self : t) : list AssetMetric.t :=
  [Vibration self; Temperature self; Humidity self; Speed self].

Definition calculate_defect_probability (self : t)
    (vibration temperature speed : Q) : M Q :=
  vibration_factor <-
    lift (AssetMetric.calc_defect_factor (Vibration self) vibration) ;;
  temp_factor <-
    lift (AssetMetric.calc_defect_factor (Temperature self) temperature) ;;
  speed_factor <-
    lift (AssetMetric.calc_defect_factor (Speed self) speed) ;;
  jitter <- Random.uniform 0.8 1.2 ;;
  let defect_probability :=
    Num.round2
      ((vibration_factor * 0.4 + temp_factor * 0.3 + speed_factor * 0.3)
       * jitter) in
  ret (Qmin defect_probability 1).

(** [x in anomaly_metrics] *)
Definition contains (x : string) (l : list string) : bool :=
  existsb (String.eqb x) l.

(** One [if random.choice([True, False]): anomaly_metrics.append(name)]. *)
Definition maybe_append (name : string) (anomaly_metrics : list string)
  : M (list string) :=
  pick <- Random.choice [true; false] ;;
  ret (if pick : bool then anomaly_metrics ++ [name] else anomaly_metrics).

(** The first half of [create_random_event]: the list [anomaly_metrics]. *)
Definition select_anomaly_metrics (anomaly : bool) : M (list string) :=
  let anomaly_metrics := [] in
  if anomaly then
    anomaly_metrics <- maybe_append "vibration" anomaly_metrics ;;
    anomaly_metrics <- maybe_append "temperature" anomaly_metrics ;;
    anomaly_metrics <- maybe_append "humidity" anomaly_metrics ;;
    anomaly_metrics <- maybe_append "speed" anomaly_metrics ;;
    match anomaly_metrics with
    | [] =>
        forced <- Random.choice
                    ["vibration"; "temperature"; "humidity"; "speed"]%string ;;
        ret (anomaly_metrics ++ [forced])
    | _ :: _ => ret anomaly_metrics
    end
  else ret anomaly_metrics.

Definition create_random_event (self : t)
    (asset_id product_id batch_id : string) (timestamp : datetime)
    (anomaly : bool) (variation_multiplier : Q) : M Event.t :=
  anomaly_metrics <- select_anomaly_metrics anomaly ;;
  vibration <-
    AssetMetric.calculate_random_value (Vibration self)
      (anomaly && contains "vibration" anomaly_metrics)
      variation_multiplier ;;
  temperature <-
    AssetMetric.calculate_random_value (Temperature self)
      (anomaly && contains "temperature" anomaly_metrics)
      variation_multiplier ;;
  humidity <-
    AssetMetric.calculate_random_value (Humidity self)
      (anomaly && contains "humidity" anomaly_metrics)
      variation_multiplier ;;
  speed <-
    AssetMetric.calculate_random_value (Speed self)
      (anomaly && contains "speed" anomaly_metrics)
      variation_multiplier ;;
  defect_probability <-
    calculate_defect_probability self vibration temperature speed ;;
  id <- Uuid.uuid4_str ;;
  ret (Event.mk id asset_id product_id batch_id
         vibration temperature humidity speed defect_probability timestamp).

Definition Assembly : t :=
  mk "Assembly"
     (AssetMetric.mk 0.1 0.3 0.08 0.5)
     (AssetMetric.mk 20 35 3 12)
     (AssetMetric.mk 30 70 0 15)
     (AssetMetric.mk 50 100 20 20).

Definition Press : t :=
  mk "Press"
     (AssetMetric.mk 0.2 0.8 0.08 0.5)
     (AssetMetric.mk 25 45 5 15)
     (AssetMetric.mk 30 70 0 15)
     (AssetMetric.mk 20 60 10 20).

Definition Conveyor : t :=
  mk "Conveyor"
     (AssetMetric.mk 0.05 0.2 0.08 0.5)
     (AssetMetric.mk 18 30 2 10)
     (AssetMetric.mk 30 70 0 15)
     (AssetMetric.mk 10 50 8 20).

Definition Packaging : t :=
  mk "Packaging"
     (AssetMetric.mk 0.1 0.4 0.08 0.5)
     (AssetMetric.mk 20 40 3 12)
     (AssetMetric.mk 30 70 0 15)
     (AssetMetric.mk 30 80 15 20).

(** [AssetType.get_types()] *)
Definition get_types : gmap string t :=
  list_to_map
    [("Assembly"%string, Assembly);
     ("Press"%string, Press);
     ("Conveyor"%string, Conveyor);
     ("Packaging"%string, Packaging)].

End AssetType.

(** ** The specification's formulas *)

Module Spec.


(** How far [value] lies from the nominal range; 0 inside it. *)
Definition range_distance (m : AssetMetric.t) (value : Q) : Q :=
  Qmax 0 (Qmax (value - AssetMetric.Max m) (AssetMetric.Min m - value)).

(** [value] lies strictly outside the nominal range of [m]. *)
Definition outside (m : AssetMetric.t) (value : Q) : Prop :=
  value < AssetMetric.Min m \/ AssetMetric.Max m < value.

(** [value] lies in the nominal range of [m], ends included. *)
Definition within (m : AssetMetric.t) (value : Q) : Prop :=
  AssetMetric.Min m <= value /\ value <= AssetMetric.Max m.

(** The excursion magnitude of an anomalous sample:
    [uniform(variation * 0.5, variation * 1.5) * variation_multiplier]
    at unit draw [u]. *)
Definition excursion (m : AssetMetric.t) (u mult : Q) : Q :=
  (AssetMetric.Variation m * 0.5
   + (AssetMetric.Variation m * 1.5 - AssetMetric.Variation m * 0.5) * u)
  * mult.

(** [defect_probability] as the specification words it, for deviation
    factors [vf], [tf], [sf] and jitter [j]:
    [min(1.0, round((0.4*vf + 0.3*tf + 0.3*sf) * j, 2))]. *)
Definition defect_probability (vf tf sf j : Q) : Q :=
  Qmin 1 (Num.round2 ((0.4 * vf + 0.3 * tf + 0.3 * sf) * j)).

(** The jitter [random.uniform(0.8, 1.2)] read at the cursor of [w]. *)
Definition jitter (w : World) : Q :=
  0.8 + (1.2 - 0.8) * unit_draw (rng w) (cursor (rng w)).

End Spec.

(** ** Concrete worlds *)

Module Examples.

(** Every unit draw is [u]; the index outcomes are those of [ks], then 0;
    the [n]-th read of the operating system's entropy is [e n]. *)
Definition world (u : Q) (ks : list nat) (e : nat -> Z) : World :=
  mkWorld (mkRandomState (fun _ => u) (fun i => nth i ks 0%nat) 0) e 0.

End Examples.

(** * Provisioning scripts: [infra/scripts/fabric]

    Python strings are sequences of code points. *)

Module Py.

Definition str : Type := list N.

(** A literal of printable ASCII. *)
Definition lit (s : string) : str := map N_of_ascii (list_ascii_of_string s).

(** [s.startswith(old)] *)
Fixpoint startswith (s old : str) {struct old} : bool :=
  match old, s with
  | [], _ => true
  | _ :: _, [] => false
  | o :: old', c :: s' => N.eqb o c && startswith s' old'
  end.

(** [old] occurs somewhere in [s]. *)
Definition occurs (old s : str) : Prop :=
  exists a b : str, s = a ++ old ++ b.

(** [s.replace(old, new)] for a non-empty [old]: occurrences are found
    from the left and do not overlap; [skip] counts the characters of the
    occurrence just replaced that are still to be passed over. *)
Fixpoint replace_from (old new : str) (skip : nat) (s : str) : str :=
  match s with
  | [] => []
  | c :: s' =>
      match skip with
      | S k => replace_from old new k s'
      | O =>
          if startswith s old
          then new ++ replace_from old new (length old - 1) s'
          else c :: replace_from old new 0 s'
      end
  end.

(** [s.replace(old, new)]; an empty [old] matches before every character
    and at the end. *)
Definition replace (s old new : str) : str :=
  match old with
  | [] => new ++ concat (map (fun c => c :: new) s)
  | _ :: _ => replace_from old new 0 s
  end.

Definition hex_digit (d : N) : N :=
  nth (N.to_nat d)
      (lit "0123456789abcdef") 48%N.

(** ['%04x' % n] for [n < 0x10000]. *)
Definition hex4 (n : N) : str :=
  [hex_digit (n / 4096 mod 16); hex_digit (n / 256 mod 16);
   hex_digit (n / 16 mod 16); hex_digit (n mod 16)]%N.

(** What [json.dumps], with its default [ensure_ascii=True], writes for
    one character of a string. *)
Definition escape_char (c : N) : str :=
  if N.eqb c 92 then lit "\\"
  else if N.eqb c 34 then [92; 34]%N
  else if N.eqb c 8 then lit "\b"
  else if N.eqb c 12 then lit "\f"
  else if N.eqb c 10 then lit "\n"
  else if N.eqb c 13 then lit "\r"
  else if N.eqb c 9 then lit "\t"
  else if (N.leb 32 c && N.leb c 126)%bool then [c]
  else if N.ltb c 65536 then lit "\u" ++ hex4 c
  else
    let n := (c - 65536)%N in
    let s1 := N.lor 55296 (N.land (N.shiftr n 10) 1023) in
    let s2 := N.lor 56320 (N.land n 1023) in
    lit "\u" ++ hex4 s1 ++ lit "\u" ++ hex4 s2.

(** [json.dumps(s)] for a string [s]. *)
Definition json_dumps_str (s : str) : str :=
  [34%N] ++ concat (map escape_char s) ++ [34%N].

(** [s[1:-1]] *)
Definition slice_1_m1 (s : str) : str := removelast (tl s).

(** The characters between the quotes of a JSON string (RFC 8259,
    section 7): no bare quote, backslash or control character, and after
    a backslash one of the two-character escapes or [u] and four
    hexadecimal digits. *)
Inductive scan_state : Type :=
| Plain
| Escaped
| Hex (remaining : nat).

Definition is_hex (c : N) : bool :=
  ((N.leb 48 c && N.leb c 57) || (N.leb 97 c && N.leb c 102)
   || (N.leb 65 c && N.leb c 70))%bool.

Fixpoint json_string_body_from (st : scan_state) (s : str) : bool :=
  match s with
  | [] => match st with Plain => true | _ => false end
  | c :: s' =>
      match st with
      | Plain =>
          if N.eqb c 92 then json_string_body_from Escaped s'
          else if N.eqb c 34 then false
          else if N.ltb c 32 then false
          else json_string_body_from Plain s'
      | Escaped =>
          if existsb (N.eqb c) (lit "\/bfnrt" ++ [34%N])
          then json_string_body_from Plain s'
          else if N.eqb c 117 then json_string_body_from (Hex 4) s'
          else false
      | Hex (S O) => is_hex c && json_string_body_from Plain s'
      | Hex (S k) => is_hex c && json_string_body_from (Hex k) s'
      | Hex O => false
      end
  end.

Definition json_string_body (s : str) : bool :=
  json_string_body_from Plain s.

End Py.

(** ** [fabric_data_agent.py] *)

Module FabricDataAgent.

(** A value of the [tokens] dictionary: a string, or another object given
    by its [str()] rendering. *)
Inductive TokenValue : Type :=
| VStr (s : Py.str)
| VOther (rendered : Py.str).

(** The text a value is inserted as. *)
Definition escaped_value (value : TokenValue) : Py.str :=
  match value with
  | VStr s => Py.slice_1_m1 (Py.json_dumps_str s)
  | VOther rendered => rendered
  end.

(** [replace_tokens_in_content]; [tokens] lists the items of the
    dictionary in insertion order. *)
Definition replace_tokens_in_content (content : Py.str)
    (tokens : list (Py.str * TokenValue)) : Py.str :=
  fold_left
    (fun content item => Py.replace content (fst item) (escaped_value (snd item)))
    tokens content.

End FabricDataAgent.

(** ** The scripts that call the platform

    The client classes of [fabric_api.py] are not part of the sources at
    hand; a script takes their methods as an [Api] over a remote state.
    A [print] is a write to the standard output, which can raise (a
    character the console's encoding lacks, a closed pipe): in
    [setup_folder] and [setup_environment] every [print] is a write to a
    [Stdout], given with the message it formats.  [setup_workspace] is
    given without its progress messages, except where building the
    message can raise. *)

Module Fabric.

(** The exceptions the scripts tell apart.  [FabricApiError] carries its
    [status_code]; [NotAnException] stands for what [except Exception]
    does not catch ([KeyboardInterrupt], [SystemExit]). *)
Inductive PyExc : Type :=
| FabricApiError (status_code : option Z)
| KeyError
| TypeError
| FileNotFoundError
| OtherException
| NotAnException.

Definition is_Exception (e : PyExc) : bool :=
  match e with
  | NotAnException => false
  | _ => true
  end.

Inductive Outcome (A : Type) : Type :=
| Returned (a : A)
| Raised (e : PyExc).
Arguments Returned {A} a.
Arguments Raised {A} e.

(** A JSON object of the platform, with the string fields the scripts
    read. *)
Abbreviation Dict := (gmap string Py.str).

(** The calls a script makes, with their arguments. *)
Inductive Call : Type :=
| GetWorkspace (name : Py.str)
| CreateWorkspace (name : Py.str)
| GetCapacity (name : Py.str)
| AssignToCapacity (workspace_id capacity_id : Py.str)
| GetFolderByName (name : Py.str) (parent : option Py.str)
| CreateFolder (name : Py.str) (parent : option Py.str)
| GetFolders
| GetEnvironmentByName (name : Py.str)
| CreateEnvironment (name : Py.str) (description folder_id : option Py.str)
| ReadFile (path : Py.str)
| UpdateEnvironmentDefinition (environment_id yml_base64 : Py.str)
| PublishEnvironment (environment_id : Py.str).

(** The methods of [FabricApiClient] and [FabricWorkspaceApiClient] that
    the scripts use, the file system, and [base64] over UTF-8. *)
Record Api (S : Type) : Type := mkApi {
  get_workspace : Py.str -> S -> Outcome (option Dict) * S;
  create_workspace : Py.str -> S -> Outcome Py.str * S;
  get_capacity : Py.str -> S -> Outcome (option Dict) * S;
  assign_to_capacity : Py.str -> Py.str -> S -> Outcome unit * S;
  get_folder_by_name :
    Py.str -> option Py.str -> S -> Outcome (option Dict) * S;
  create_folder : Py.str -> option Py.str -> S -> Outcome Py.str * S;
  get_folders : S -> Outcome (list Dict) * S;
  get_environment_by_name : Py.str -> S -> Outcome (option Dict) * S;
  create_environment :
    Py.str -> option Py.str -> option Py.str -> S
    -> Outcome (option Dict) * S;
  update_environment_definition :
    Py.str -> Py.str -> S -> Outcome bool * S;
  publish_environment : Py.str -> S -> Outcome unit * S;
  read_text : Py.str -> S -> Outcome Py.str * S;
  b64encode_utf8 : Py.str -> Outcome Py.str
}.
Arguments get_workspace {S}.
Arguments create_workspace {S}.
Arguments get_capacity {S}.
Arguments assign_to_capacity {S}.
Arguments get_folder_by_name {S}.
Arguments create_folder {S}.
Arguments get_folders {S}.
Arguments get_environment_by_name {S}.
Arguments create_environment {S}.
Arguments update_environment_definition {S}.
Arguments publish_environment {S}.
Arguments read_text {S}.
Arguments b64encode_utf8 {S}.

(** A script runs on the remote state and on the list of calls made so
    far. *)
Definition Script (S A : Type) : Type :=
  S * list Call -> Outcome A * (S * list Call).

Definition ret {S A : Type} (a : A) : Script S A :=
  fun st => (Returned a, st).

Definition raise {S A : Type} (e : PyExc) : Script S A :=
  fun st => (Raised e, st).

Definition bind {S A B : Type} (c : Script S A) (k : A -> Script S B)
  : Script S B :=
  fun st =>
    match c st with
    | (Returned a, st') => k a st'
    | (Raised e, st') => (Raised e, st')
    end.

Notation "x <~ c ;; k" := (bind c (fun x => k))
  (at level 100, c at next level, right associativity).

(** [try: body except <caught> as e: handler(e)] *)
Definition try_except {S A : Type} (body : Script S A)
    (caught : PyExc -> bool) (handler : PyExc -> Script S A) : Script S A :=
  fun st =>
    match body st with
    | (Returned a, st') => (Returned a, st')
    | (Raised e, st') =>
        if caught e then handler e st' else (Raised e, st')
    end.

Definition is_FabricApiError (e : PyExc) : bool :=
  match e with
  | FabricApiError _ => true
  | _ => false
  end.

(** One call of the client: it is recorded, then made. *)
Definition call {S A : Type} (c : Call) (op : S -> Outcome A * S)
  : Script S A :=
  fun st =>
    let (r, s') := op (fst st) in (r, (s', snd st ++ [c])).

Definition lift {S A : Type} (r : Outcome A) : Script S A :=
  fun st => (r, st).

(** [if x:] for [None] or a dictionary. *)
Definition truthy (x : option Dict) : bool :=
  match x with
  | Some d => negb (bool_decide (d = ∅))
  | None => false
  end.

(** [x[key]] for [None] or a dictionary. *)
Definition subscript (x : option Dict) (key : string) : Outcome Py.str :=
  match x with
  | None => Raised TypeError
  | Some d =>
      match d !! key with
      | Some v => Returned v
      | None => Raised KeyError
      end
  end.

(** [fabric_workspace.setup_workspace] *)
Definition setup_workspace {S : Type} (fabric_client : Api S)
    (capacity_name workspace_name : Py.str) : Script S (option Py.str) :=
  existing_workspace <~
    call (GetWorkspace workspace_name)
      (get_workspace fabric_client workspace_name) ;;
  workspace_id <~
    (if truthy existing_workspace
     then lift (subscript existing_workspace "id")
     else
       try_except
         (call (CreateWorkspace workspace_name)
            (create_workspace fabric_client workspace_name))
         is_FabricApiError
         (fun e =>
            match e with
            | FabricApiError (Some 409%Z) =>
                existing_workspace <~
                  call (GetWorkspace workspace_name)
                    (get_workspace fabric_client workspace_name) ;;
                lift (subscript existing_workspace "id")
            | _ => raise e
            end)) ;;
  capacity <~
    call (GetCapacity capacity_name)
      (get_capacity fabric_client capacity_name) ;;
  if negb (truthy capacity) then ret None
  else
    capacity_id <~ lift (subscript capacity "id") ;;
    display_name <~ lift (subscript capacity "displayName") ;;
    done <~
      call (AssignToCapacity workspace_id capacity_id)
        (assign_to_capacity fabric_client workspace_id capacity_id) ;;
    ret (Some workspace_id).

(** [next((f for f in folders if f['id'] == folder_id), None)] *)
Fixpoint find_folder (folders : list Dict) (folder_id : Py.str)
  : Outcome (option Dict) :=
  match folders with
  | [] => Returned None
  | f :: rest =>
      match subscript (Some f) "id" with
      | Raised e => Raised e
      | Returned id =>
          if bool_decide (id = folder_id) then Returned (Some f)
          else find_folder rest folder_id
      end
  end.

(** [if x:] for [None] or a string. *)
Definition truthy_str (x : option Py.str) : bool :=
  match x with
  | Some (_ :: _) => true
  | _ => false
  end.

(** What a [print] of [fabric_folder.py] or [fabric_environment.py]
    writes: the statement, by the words of its f-string, and the values
    the f-string formats. *)
Inductive Message : Type :=
| FolderSetUp (folder_name : Py.str)
| FolderExisting (folder_name folder_id : Py.str)
| FolderCreatingUnder (folder_name parent_folder_id : Py.str)
| FolderCreatingInRoot (folder_name : Py.str)
| FolderCreated (folder_name folder_id : Py.str)
| FolderFailed (folder_name : Py.str) (e : PyExc)
| FolderUnexpected (folder_name : Py.str) (e : PyExc)
| EnvironmentSetUp (environment_name : Py.str)
| EnvironmentExisting (environment_name environment_id : Py.str)
| EnvironmentCreating (environment_name : Py.str)
| EnvironmentCreated (environment_name environment_id : Py.str)
| EnvironmentFailed (e : PyExc)
| DefinitionUpdating (environment_yml_path : Py.str)
| DefinitionUpdated (environment_name : Py.str)
| EnvironmentPublishing (environment_name : Py.str)
| EnvironmentPublished (environment_name : Py.str)
| DefinitionNotUpdated (environment_name : Py.str)
| ConfigurationFailed (e : PyExc)
| ConfigurationSkipped.

(** [sys.stdout]: writing a message returns or raises, and may change
    the state outside the script. *)
Record Stdout (S : Type) : Type := mkStdout {
  write : Message -> S -> Outcome unit * S
}.
Arguments write {S}.

(** [print(message)]: no call of the client, so the list of calls stays
    as it is. *)
Definition print {S : Type} (stdout : Stdout S) (message : Message)
  : Script S unit :=
  fun st =>
    let (r, s') := write stdout message (fst st) in (r, (s', snd st)).

(** [fabric_folder.setup_folder].  The first [print] stands before the
    [try]; the two [except] clauses are tried in order, and each prints
    before it raises; the [FabricApiError] made from a message alone is
    taken to have no status code. *)
Definition setup_folder {S : Type} (workspace_client : Api S)
    (stdout : Stdout S)
    (folder_name : Py.str) (parent_folder_id : option Py.str)
  : Script S (option Dict) :=
  printed <~ print stdout (FolderSetUp folder_name) ;;
  try_except
    (existing_folder <~
       call (GetFolderByName folder_name parent_folder_id)
         (get_folder_by_name workspace_client folder_name
            parent_folder_id) ;;
     if truthy existing_folder
     then
       folder_id <~ lift (subscript existing_folder "id") ;;
       printed <~ print stdout (FolderExisting folder_name folder_id) ;;
       ret existing_folder
     else
       printed <~
         (match parent_folder_id with
          | Some parent =>
              if truthy_str parent_folder_id
              then print stdout (FolderCreatingUnder folder_name parent)
              else print stdout (FolderCreatingInRoot folder_name)
          | None => print stdout (FolderCreatingInRoot folder_name)
          end) ;;
       folder_id <~
         call (CreateFolder folder_name parent_folder_id)
           (create_folder workspace_client folder_name parent_folder_id) ;;
       folders <~ call GetFolders (get_folders workspace_client) ;;
       created_folder <~ lift (find_folder folders folder_id) ;;
       if negb (truthy created_folder) then raise (FabricApiError None)
       else
         printed <~ print stdout (FolderCreated folder_name folder_id) ;;
         ret created_folder)
    is_Exception
    (fun e =>
       if is_FabricApiError e
       then
         printed <~ print stdout (FolderFailed folder_name e) ;;
         raise e
       else
         printed <~ print stdout (FolderUnexpected folder_name e) ;;
         raise (FabricApiError None)).

(** [fabric_environment.read_environment_yml] *)
Definition read_environment_yml {S : Type} (api : Api S) (file_path : Py.str)
  : Script S Py.str :=
  try_except
    (call (ReadFile file_path) (read_text api file_path))
    is_Exception
    (fun e =>
       match e with
       | FileNotFoundError => raise FileNotFoundError
       | _ => raise OtherException
       end).

(** [fabric_environment.setup_environment].  The first [print] and the
    one of the last [else] stand outside every [try]; the handler of the
    first [try] prints and raises again, the handler of the second only
    prints. *)
Definition setup_environment {S : Type} (workspace_client : Api S)
    (stdout : Stdout S)
    (environment_name : Py.str)
    (description environment_yml_path folder_id : option Py.str)
  : Script S (option Dict) :=
  printed <~ print stdout (EnvironmentSetUp environment_name) ;;
  found <~
    try_except
      (environment_info <~
         call (GetEnvironmentByName environment_name)
           (get_environment_by_name workspace_client environment_name) ;;
       if truthy environment_info
       then
         environment_id <~ lift (subscript environment_info "id") ;;
         printed <~
           print stdout
             (EnvironmentExisting environment_name environment_id) ;;
         ret (environment_info, environment_id)
       else
         printed <~ print stdout (EnvironmentCreating environment_name) ;;
         environment_info <~
           call (CreateEnvironment environment_name description folder_id)
             (create_environment workspace_client environment_name
                description folder_id) ;;
         environment_id <~ lift (subscript environment_info "id") ;;
         printed <~
           print stdout
             (EnvironmentCreated environment_name environment_id) ;;
         ret (environment_info, environment_id))
      is_Exception
      (fun e =>
         printed <~ print stdout (EnvironmentFailed e) ;;
         raise e) ;;
  let environment_info := fst found in
  let environment_id := snd found in
  done <~
    (match environment_yml_path with
     | Some path =>
         if truthy_str environment_yml_path
         then
           try_except
             (printed <~ print stdout (DefinitionUpdating path) ;;
              yml_content <~ read_environment_yml workspace_client path ;;
              yml_base64 <~
                lift (b64encode_utf8 workspace_client yml_content) ;;
              success <~
                call (UpdateEnvironmentDefinition environment_id yml_base64)
                  (update_environment_definition workspace_client
                     environment_id yml_base64) ;;
              if success : bool
              then
                printed <~
                  print stdout (DefinitionUpdated environment_name) ;;
                printed <~
                  print stdout (EnvironmentPublishing environment_name) ;;
                published <~
                  call (PublishEnvironment environment_id)
                    (publish_environment workspace_client environment_id) ;;
                print stdout (EnvironmentPublished environment_name)
              else print stdout (DefinitionNotUpdated environment_name))
             is_Exception
             (fun e => print stdout (ConfigurationFailed e))
         else print stdout ConfigurationSkipped
     | None => print stdout ConfigurationSkipped
     end) ;;
  ret environment_info.

(** A platform on which every lookup finds nothing, creation returns the
    identifier ["new"], and the call counter is the remote state. *)
Definition empty_platform : Api nat :=
  {| get_workspace := fun _ n => (Returned None, S n);
     create_workspace := fun _ n => (Returned (Py.lit "new"), S n);
     get_capacity := fun _ n => (Returned None, S n);
     assign_to_capacity := fun _ _ n => (Returned tt, S n);
     get_folder_by_name := fun _ _ n => (Returned None, S n);
     create_folder := fun _ _ n => (Returned (Py.lit "new"), S n);
     get_folders :=
       fun n => (Returned [{[ "id"%string := Py.lit "new" ]}], S n);
     get_environment_by_name := fun _ n => (Returned None, S n);
     create_environment :=
       fun _ _ _ n =>
         (Returned (Some {[ "id"%string := Py.lit "new" ]}), S n);
     update_environment_definition := fun _ _ n => (Returned true, S n);
     publish_environment := fun _ n => (Raised (FabricApiError (Some 500%Z)), S n);
     read_text := fun _ n => (Returned (Py.lit "dependencies: []"), S n);
     b64encode_utf8 := fun s => Returned s |}.


(** A standard output that takes no message: every write raises, as a
    [UnicodeEncodeError] does for a message the encoding lacks. *)
Definition strict_stdout : Stdout nat :=
  {| write := fun _ n => (Raised OtherException, n) |}.

End Fabric.

(** ** Tactics for comparisons, maxima and minima *)

(** Turn the outcome of a three-way comparison into an order fact. *)
Ltac qcompare_facts :=
  repeat match goal with
         | H : Qcompare _ _ = Eq |- _ => apply Qeq_alt in H
         | H : Qcompare _ _ = Lt |- _ => apply Qlt_alt in H
         | H : Qcompare _ _ = Gt |- _ => apply Qgt_alt in H
         end.

(** Name every [Qmax] and [Qmin], in the goal and the hypotheses, and split
    on which argument it equals. *)
Ltac qminmax_name :=
  repeat match goal with
         | |- context [Qmax ?a ?b] =>
             let m := fresh "m" in
             let E := fresh "E" in
             pose proof (Q.max_spec a b);
             remember (Qmax a b) as m eqn:E in *; clear E
         | _ : context [Qmax ?a ?b] |- _ =>
             let m := fresh "m" in
             let E := fresh "E" in
             pose proof (Q.max_spec a b);
             remember (Qmax a b) as m eqn:E in *; clear E
         | |- context [Qmin ?a ?b] =>
             let m := fresh "m" in
             let E := fresh "E" in
             pose proof (Q.min_spec a b);
             remember (Qmin a b) as m eqn:E in *; clear E
         | _ : context [Qmin ?a ?b] |- _ =>
             let m := fresh "m" in
             let E := fresh "E" in
             pose proof (Q.min_spec a b);
             remember (Qmin a b) as m eqn:E in *; clear E
         end.

Ltac qminmax :=
  qminmax_name;
  repeat match goal with
         | H : (_ /\ _) \/ (_ /\ _) |- _ => destruct H as [[? ?] | [? ?]]
         end.

(** The branches of [escape_char]. *)
Ltac escape_char_cases c :=
  unfold Py.escape_char;
  destruct (N.eqb_spec c 92) as [-> | N92];
  [| destruct (N.eqb_spec c 34) as [-> | N34];
     [| destruct (N.eqb_spec c 8) as [-> | N8];
        [| destruct (N.eqb_spec c 12) as [-> | N12];
           [| destruct (N.eqb_spec c 10) as [-> | N10];
              [| destruct (N.eqb_spec c 13) as [-> | N13];
                 [| destruct (N.eqb_spec c 9) as [-> | N9];
                    [| destruct (N.leb_spec 32 c) as [L32 | L32];
                       [destruct (N.leb_spec c 126) as [L126 | L126] |];
                       cbn [andb];
                       [| destruct (N.ltb_spec c 65536)
                        | destruct (N.ltb_spec c 65536)]]]]]]]].

(** Case analysis on every outcome a script run depends on: the results
    of the calls first, then the tests made on them. *)
Ltac script_cases H :=
  cbv beta iota zeta delta [fst snd app] in H;
  repeat (match type of H with
          | context [let (_, _) := ?e in _] =>
              lazymatch e with
              | context [let (_, _) := _ in _] => fail
              | context [match _ with _ => _ end] => fail
              | context [if _ then _ else _] => fail
              | _ => idtac
              end;
              let E := fresh "E" in
              destruct e as [[? | ?] ?] eqn:E
          | context [Fabric.truthy ?x] =>
              let E := fresh "T" in destruct (Fabric.truthy x) eqn:E
          | context [Fabric.subscript ?x ?k] =>
              let E := fresh "K" in destruct (Fabric.subscript x k) eqn:E
          | context [Fabric.find_folder ?l ?k] =>
              let E := fresh "F" in destruct (Fabric.find_folder l k) eqn:E
          | context [@Fabric.b64encode_utf8 _ ?a ?x] =>
              let E := fresh "B" in destruct (@Fabric.b64encode_utf8 _ a x) eqn:E
          | context [match ?e with _ => _ end] => is_var e; destruct e
          | context [if ?e then _ else _] => is_var e; destruct e
          end;
          cbv beta iota zeta delta
            [fst snd app negb Fabric.is_FabricApiError Fabric.is_Exception andb] in H).

(** * Properties *)

(** ** Rounding *)

Section Rounding.

Import Num.

Lemma round_half_even_bounds (q : Q) :
  (Qfloor q <= round_half_even q <= Qfloor q + 1)%Z.
Proof.
  unfold round_half_even.
  destruct (Qcompare _ _); [destruct (Z.even _) | |]; lia.
Qed.

Lemma round_half_even_inject (z : Z) : round_half_even (inject_Z z) = z.
Proof.
  unfold round_half_even. rewrite Qfloor_Z.
  assert (H : inject_Z z - inject_Z z < 1 # 2) by lra.
  rewrite Qlt_alt in H. now rewrite H.
Qed.

Lemma round_half_even_mono (p q : Q) :
  p <= q -> (round_half_even p <= round_half_even q)%Z.
Proof.
  intros Hpq.
  pose proof (Qfloor_resp_le _ _ Hpq) as Hf.
  destruct (Z.eq_dec (Qfloor p) (Qfloor q)) as [E | N].
  - unfold round_half_even. rewrite <- E.
    destruct (Qcompare (p - inject_Z (Qfloor p)) (1 # 2)) eqn:Cp;
      destruct (Qcompare (q - inject_Z (Qfloor p)) (1 # 2)) eqn:Cq;
      try (destruct (Z.even (Qfloor p))); try lia;
      qcompare_facts; lra.
  - pose proof (round_half_even_bounds p).
    pose proof (round_half_even_bounds q). lia.
Qed.

Lemma round_half_even_comp (p q : Q) :
  p == q -> round_half_even p = round_half_even q.
Proof.
  intros E. apply Z.le_antisymm; apply round_half_even_mono; lra.
Qed.

Lemma round2_mono (p q : Q) : p <= q -> round2 p <= round2 q.
Proof.
  intros H. unfold round2.
  assert (Hz : (round_half_even (p * 100) <= round_half_even (q * 100))%Z)
    by (apply round_half_even_mono; lra).
  rewrite Zle_Qle in Hz. lra.
Qed.

Lemma round2_comp (p q : Q) : p == q -> round2 p == round2 q.
Proof.
  intros E. unfold round2.
  rewrite (round_half_even_comp (p * 100) (q * 100)) by lra. reflexivity.
Qed.

Lemma round2_hundredths (c : Z) : round2 (hundredths c) == hundredths c.
Proof.
  unfold round2, hundredths.
  rewrite (round_half_even_comp _ (inject_Z c)) by lra.
  rewrite round_half_even_inject. reflexivity.
Qed.

Lemma hundredths_succ (c : Z) :
  hundredths (c + 1) == hundredths c + 0.01.
Proof.
  unfold hundredths. rewrite inject_Z_plus. change (inject_Z 1) with 1. lra.
Qed.

Lemma hundredths_pred (c : Z) :
  hundredths (c - 1) == hundredths c - 0.01.
Proof.
  unfold hundredths. change (c - 1)%Z with (c + (-1))%Z.
  rewrite inject_Z_plus. change (inject_Z (-1)) with (-1). lra.
Qed.

Lemma hundredths_pred_nonneg (c : Z) :
  0 < hundredths c -> 0 <= hundredths (c - 1).
Proof.
  intros H.
  assert (Hc : (0 < c)%Z).
  { rewrite Zlt_Qlt. unfold hundredths in H.
    change (inject_Z 0) with 0. lra. }
  assert (Hc' : (0 <= c - 1)%Z) by lia.
  rewrite Zle_Qle in Hc'. unfold hundredths.
  change (inject_Z 0) with 0 in Hc'. lra.
Qed.




End Rounding.

(** ** The deviation factor *)

Section DeviationFactor.

Import AssetMetric.

Lemma truediv_ok (a b : Q) : ~ b == 0 -> truediv a b = Ok (a / b).
Proof.
  intros Hb. unfold truediv.
  destruct (Qeq_bool b 0) eqn:E; [| reflexivity].
  apply Qeq_bool_eq in E. contradiction.
Qed.

Lemma truediv_zero (a b : Q) : b == 0 -> truediv a b = Raise ZeroDivisionError.
Proof.
  intros Hb. unfold truediv. apply Qeq_eq_bool in Hb. now rewrite Hb.
Qed.

Lemma calc_defect_factor_ok (m : t) (v : Q) :
  ~ DefectFactor m == 0 ->
  calc_defect_factor m v =
  Ok (Qmax (Qmax 0 ((v - Max m) / DefectFactor m))
           ((Min m - v) / DefectFactor m)).
Proof.
  intros Hd. unfold calc_defect_factor. now rewrite !truediv_ok.
Qed.

Lemma calc_defect_factor_zero (m : t) (v : Q) :
  DefectFactor m == 0 -> calc_defect_factor m v = Raise ZeroDivisionError.
Proof.
  intros Hd. unfold calc_defect_factor. now rewrite truediv_zero.
Qed.

(** Whatever the sign of the divisor, a factor is never negative. *)
Lemma calc_defect_factor_nonneg (m : t) (v f : Q) :
  calc_defect_factor m v = Ok f -> 0 <= f.
Proof.
  unfold calc_defect_factor.
  destruct (truediv _ _) as [a |]; [| discriminate].
  destruct (truediv _ _) as [b |]; [| discriminate].
  intros [= <-]. qminmax; lra.
Qed.


(** The factor is the distance from the range over the sensitivity. *)
Lemma calc_defect_factor_distance (m : t) (v : Q) :
  0 < DefectFactor m ->
  exists f, calc_defect_factor m v = Ok f /\
            f == Spec.range_distance m v / DefectFactor m.
Proof.
  intros Hd. eexists. split.
  - apply calc_defect_factor_ok. lra.
  - unfold Spec.range_distance, Qdiv.
    pose proof (Qinv_lt_0_compat _ Hd) as Hk.
    generalize dependent (/ DefectFactor m). intros k Hk.
    qminmax; nra.
Qed.



End DeviationFactor.

(** ** Draws *)

Section Draws.

Import Random.

Lemma advance_rng_ok (w : World) :
  unit_draws_ok (rng w) -> unit_draws_ok (rng (advance w)).
Proof. intros H i. exact (H i). Qed.

Lemma bind_run {A B : Type} (c : M A) (k : A -> M B) (w w1 : World) (a : A) :
  c w = Ok (a, w1) -> bind c k w = k a w1.
Proof. intros H. unfold bind. now rewrite H. Qed.

Lemma bind_raise {A B : Type} (c : M A) (k : A -> M B) (w : World)
    (e : PyError) :
  c w = Raise e -> bind c k w = Raise e.
Proof. intros H. unfold bind. now rewrite H. Qed.

Lemma uniform_run (a b : Q) (w : World) :
  uniform a b w =
  Ok (a + (b - a) * unit_draw (rng w) (cursor (rng w)), advance w).
Proof. reflexivity. Qed.

Lemma world_unit_draws_ok (u : Q) (ks : list nat) (e : nat -> Z) :
  0 <= u -> u < 1 -> unit_draws_ok (rng (Examples.world u ks e)).
Proof. intros H0 H1 i. split; assumption. Qed.

(** A coin flip always returns, and consumes one outcome. *)
Lemma choice_bool_run (w : World) :
  exists b : bool, choice [true; false] w = Ok (b, advance w).
Proof.
  unfold choice.
  pose proof (Nat.mod_upper_bound (index_draw (rng w) (cursor (rng w))) 2)
    as Hk.
  cbn [length] in *.
  destruct (index_draw (rng w) (cursor (rng w)) mod 2)%nat
    as [| [| k]]; [exists true | exists false | lia]; reflexivity.
Qed.

(** A choice among the four metric names always returns one of them. *)
Lemma choice_metric_run (w : World) :
  exists x : string,
    choice ["vibration"; "temperature"; "humidity"; "speed"]%string w
    = Ok (x, advance w) /\
    In x ["vibration"; "temperature"; "humidity"; "speed"]%string.
Proof.
  unfold choice.
  pose proof (Nat.mod_upper_bound (index_draw (rng w) (cursor (rng w))) 4)
    as Hk.
  cbn [length] in *.
  destruct (index_draw (rng w) (cursor (rng w)) mod 4)%nat
    as [| [| [| [| k]]]]; try lia;
    eexists; (split; [reflexivity | cbn; tauto]).
Qed.

End Draws.

(** ** Sampling one metric *)

Section Sampling.

Import AssetMetric.

Lemma raw_value_normal (m : t) (mult : Q) (w : World) :
  raw_value m false mult w =
  Ok (Min m + (Max m - Min m) * unit_draw (rng w) (cursor (rng w)),
      Random.advance w).
Proof. reflexivity. Qed.

Lemma raw_value_anomalous (m : t) (mult : Q) (w : World) :
  exists up : bool,
    forall mult' : Q,
      raw_value m true mult' w =
      Ok (if up
          then Max m + Spec.excursion m (unit_draw (rng w) (S (cursor (rng w)))) mult'
          else Min m - Spec.excursion m (unit_draw (rng w) (S (cursor (rng w)))) mult',
          Random.advance (Random.advance (Random.advance w))).
Proof.
  destruct (choice_bool_run (Random.advance (Random.advance w))) as [up Hup].
  exists up. intros mult'.
  unfold raw_value, bind. rewrite !uniform_run.
  cbn beta iota. rewrite Hup. destruct up; reflexivity.
Qed.

Lemma calculate_random_value_run (m : t) (a : bool) (mult : Q) (w : World)
    (v : Q) (w' : World) :
  raw_value m a mult w = Ok (v, w') ->
  calculate_random_value m a mult w = Ok (Num.round2 (Qmax 0 v), w').
Proof. intros H. unfold calculate_random_value, bind. now rewrite H. Qed.

Lemma excursion_positive (m : t) (u mult : Q) :
  0 <= u -> 0 < Variation m -> 0 < mult -> 0 < Spec.excursion m u mult.
Proof.
  intros Hu Hv Hm. unfold Spec.excursion.
  assert (Hvu : 0 <= Variation m * u) by (apply Qmult_le_0_compat; lra).
  apply Qmult_lt_0_compat; lra.
Qed.

Lemma excursion_mono (m : t) (u mult mult' : Q) :
  0 <= u -> 0 <= Variation m -> mult <= mult' ->
  Spec.excursion m u mult <= Spec.excursion m u mult'.
Proof.
  intros Hu Hv Hm. unfold Spec.excursion.
  assert (Hvu : 0 <= Variation m * u) by (apply Qmult_le_0_compat; lra).
  set (base := Variation m * 0.5
               + (Variation m * 1.5 - Variation m * 0.5) * u).
  assert (Hb : 0 <= base) by (unfold base; lra).
  rewrite !(Qmult_comm base). now apply Qmult_le_compat_r.
Qed.

Lemma excursion_zero (m : t) (u mult : Q) :
  Variation m == 0 -> Spec.excursion m u mult == 0.
Proof. intros Hv. unfold Spec.excursion. rewrite Hv. ring. Qed.

(** C2, as amended: for a metric with positive Variation and multipliers
    [0 < mult <= mult'], the anomalous value before the clamp and the
    rounding is [Max + excursion] or [Min - excursion], strictly outside
    the nominal range; on the same draws the larger multiplier gives the
    same direction and an excursion at least as large; the value returned
    is that value floored at 0 and rounded. *)
Theorem anomalous_sample_excursion (m : t) (mult mult' : Q) (w : World) :
  unit_draws_ok (rng w) ->
  0 < Variation m -> 0 < mult -> mult <= mult' ->
  exists (up : bool) (exc exc' : Q) (w' : World),
    let value := if up then Max m + exc else Min m - exc in
    let value' := if up then Max m + exc' else Min m - exc' in
    raw_value m true mult w = Ok (value, w') /\
    raw_value m true mult' w = Ok (value', w') /\
    0 < exc /\ exc <= exc' /\
    Spec.outside m value /\ Spec.outside m value' /\
    calculate_random_value m true mult w
    = Ok (Num.round2 (Qmax 0 value), w') /\
    calculate_random_value m true mult' w
    = Ok (Num.round2 (Qmax 0 value'), w').
Proof.
  intros Hok Hv Hm Hmm.
  destruct (raw_value_anomalous m mult w) as [up Hraw].
  set (u := unit_draw (rng w) (S (cursor (rng w)))) in *.
  assert (Hu : 0 <= u) by apply Hok.
  pose proof (excursion_positive m u mult Hu Hv Hm) as Hpos.
  pose proof (excursion_mono m u mult mult' Hu (Qlt_le_weak _ _ Hv) Hmm)
    as Hmono.
  exists up, (Spec.excursion m u mult), (Spec.excursion m u mult'),
    (Random.advance (Random.advance (Random.advance w))).
  cbv zeta.
  repeat split; try apply Hraw; try assumption;
    try (apply calculate_random_value_run; apply Hraw);
    unfold Spec.outside; destruct up; (left; lra) || (right; lra).
Qed.

Lemma anomalous_sample_excursion_witness :
  exists (up : bool) (exc exc' : Q) (w' : World),
    let m := AssetType.Speed AssetType.Press in
    let w := Examples.world 0.5 [] (fun _ => 0%Z) in
    let value := if up then Max m + exc else Min m - exc in
    let value' := if up then Max m + exc' else Min m - exc' in
    raw_value m true 1 w = Ok (value, w') /\
    raw_value m true 2 w = Ok (value', w') /\
    0 < exc /\ exc <= exc' /\
    Spec.outside m value /\ Spec.outside m value' /\
    calculate_random_value m true 1 w = Ok (Num.round2 (Qmax 0 value), w') /\
    calculate_random_value m true 2 w = Ok (Num.round2 (Qmax 0 value'), w').
Proof.
  apply (anomalous_sample_excursion (AssetType.Speed AssetType.Press) 1 2
           (Examples.world 0.5 [] (fun _ => 0%Z))).
  - intros i. cbn. lra.
  - reflexivity.
  - reflexivity.
  - discriminate.
Defined.

(** C2 fails as stated: the Press humidity metric has Variation 0, so its
    anomalous sample, before and after the clamp and the rounding, is the
    bound 70 itself and is not outside the range 30 to 70. *)
Lemma anomalous_sample_on_bound :
  let m := AssetType.Humidity AssetType.Press in
  let w := Examples.world 0.5 [] (fun _ => 0%Z) in
  exists (raw v : Q) (w' : World),
    raw_value m true 1 w = Ok (raw, w') /\
    calculate_random_value m true 1 w = Ok (v, w') /\
    raw == 70 /\ v == 70 /\
    ~ Spec.outside m raw /\ ~ Spec.outside m v.
Proof.
  cbv zeta. do 3 eexists.
  split; [cbv; reflexivity |]. split; [cbv; reflexivity |].
  split; [reflexivity |]. split; [reflexivity |].
  unfold Spec.outside. cbn. split; intros [H | H]; revert H;
    apply Qle_not_lt; discriminate.
Qed.

Lemma uniform_between (a b u : Q) :
  a <= b -> 0 <= u -> u < 1 -> a <= a + (b - a) * u /\ a + (b - a) * u <= b.
Proof.
  intros Hab H0 H1.
  assert (0 <= (b - a) * u) by (apply Qmult_le_0_compat; lra).
  assert (0 <= (b - a) * (1 - u)) by (apply Qmult_le_0_compat; lra).
  split; lra.
Qed.

Lemma clamp_mono (p q : Q) : p <= q -> Qmax 0 p <= Qmax 0 q.
Proof. intros H. qminmax; lra. Qed.

(** C6, as amended: for a metric with [Min <= Max], a normal sample lies
    between [round(max(0, Min), 2)] and [round(max(0, Max), 2)]; when both
    bounds have at most two decimals and [Max >= 0] these are
    [max(0, Min)] and [Max]; for bounds 0.2 and 0.8 (Press vibration) the
    sample is neither below 0.2 nor above 0.8. *)
Theorem normal_sample_range (m : t) (mult : Q) (w : World) :
  unit_draws_ok (rng w) ->
  Min m <= Max m ->
  exists (v : Q) (w' : World),
    calculate_random_value m false mult w = Ok (v, w') /\
    Num.round2 (Qmax 0 (Min m)) <= v /\
    v <= Num.round2 (Qmax 0 (Max m)) /\
    (forall lo hi : Z,
        Min m == Num.hundredths lo -> Max m == Num.hundredths hi ->
        0 <= Max m ->
        Qmax 0 (Min m) <= v /\ v <= Max m) /\
    (Min m == 0.2 -> Max m == 0.8 -> 0.2 <= v /\ v <= 0.8).
Proof.
  intros Hok Hmm.
  destruct (Hok (cursor (rng w))) as [Hu0 Hu1].
  destruct (uniform_between _ _ _ Hmm Hu0 Hu1) as [Hlo Hhi].
  set (raw := Min m + (Max m - Min m) * unit_draw (rng w) (cursor (rng w)))
    in *.
  exists (Num.round2 (Qmax 0 raw)), (Random.advance w).
  assert (Hbelow : Num.round2 (Qmax 0 (Min m)) <= Num.round2 (Qmax 0 raw))
    by (apply round2_mono, clamp_mono; exact Hlo).
  assert (Habove : Num.round2 (Qmax 0 raw) <= Num.round2 (Qmax 0 (Max m)))
    by (apply round2_mono, clamp_mono; exact Hhi).
  assert (Htight : forall lo hi : Z,
             Min m == Num.hundredths lo -> Max m == Num.hundredths hi ->
             0 <= Max m ->
             Qmax 0 (Min m) <= Num.round2 (Qmax 0 raw) /\
             Num.round2 (Qmax 0 raw) <= Max m).
  { intros lo hi Elo Ehi Hpos.
    assert (E0 : 0 == Num.hundredths 0) by reflexivity.
    assert (Emin : Qmax 0 (Min m) == Num.hundredths (Z.max 0 lo)).
    { destruct (Z.max_spec 0 lo) as [[Hz ->] | [Hz ->]].
      - apply Z.lt_le_incl in Hz. rewrite Zle_Qle in Hz.
        unfold Num.hundredths in *. qminmax; lra.
      - rewrite Zle_Qle in Hz. unfold Num.hundredths in *. qminmax; lra. }
    assert (Emax : Qmax 0 (Max m) == Max m) by (qminmax; lra).
    split.
    - rewrite Emin, <- (round2_hundredths (Z.max 0 lo)).
      rewrite <- (round2_comp _ _ Emin). exact Hbelow.
    - rewrite Ehi, <- (round2_hundredths hi).
      rewrite <- (round2_comp _ _ Ehi), <- (round2_comp _ _ Emax).
      exact Habove. }
  split; [now apply calculate_random_value_run |].
  split; [exact Hbelow |]. split; [exact Habove |].
  split; [exact Htight |].
  intros Emin Emax.
  destruct (Htight 20%Z 80%Z) as [H1 H2].
  - rewrite Emin. reflexivity.
  - rewrite Emax. reflexivity.
  - rewrite Emax. discriminate.
  - split; [| lra]. revert H1. qminmax; lra.
Qed.

Lemma normal_sample_range_witness :
  exists (v : Q) (w' : World),
    calculate_random_value (AssetType.Vibration AssetType.Press) false 1
      (Examples.world 0.5 [] (fun _ => 0%Z)) = Ok (v, w') /\
    0.2 <= v /\ v <= 0.8.
Proof.
  destruct (normal_sample_range (AssetType.Vibration AssetType.Press) 1
              (Examples.world 0.5 [] (fun _ => 0%Z)))
    as (v & w' & Hrun & _ & _ & _ & Hpress).
  - intros i. cbn. lra.
  - discriminate.
  - exists v, w'. split; [exact Hrun |]. apply Hpress; reflexivity.
Defined.

(** C6 fails as stated: with [Min = 0.001 <= Max = 0.004] the normal
    sample at unit draw 1/2 is 0.0025, which rounds to 0: below
    [max(0, Min)]. *)
Lemma normal_sample_rounds_below_min :
  let m := AssetMetric.mk 0.001 0.004 0 1 in
  let w := Examples.world 0.5 [] (fun _ => 0%Z) in
  Min m <= Max m /\ unit_draws_ok (rng w) /\
  exists (v : Q) (w' : World),
    calculate_random_value m false 1 w = Ok (v, w') /\
    v == 0 /\ ~ (Qmax 0 (Min m) <= v /\ v <= Max m).
Proof.
  cbv zeta. split; [discriminate |]. split; [intros i; cbn; lra |].
  do 2 eexists. split; [cbv; reflexivity |]. split; [reflexivity |].
  intros [H _]. revert H. apply Qlt_not_le. reflexivity.
Qed.

(** A sample always returns, and leaves the sequence of unit draws as it
    was. *)
Lemma calculate_random_value_total (m : t) (a : bool) (mult : Q) (w : World) :
  exists (v : Q) (w' : World),
    calculate_random_value m a mult w = Ok (v, w') /\
    (unit_draws_ok (rng w) -> unit_draws_ok (rng w')).
Proof.
  destruct a.
  - destruct (raw_value_anomalous m mult w) as [up Hraw].
    do 2 eexists. split.
    + apply calculate_random_value_run, Hraw.
    + intros H. now repeat apply advance_rng_ok.
  - do 2 eexists. split.
    + apply calculate_random_value_run, raw_value_normal.
    + apply advance_rng_ok.
Qed.

(** With two-decimal bounds, a positive [Min] and an excursion of at least
    0.01, the anomalous sample is outside the range after the clamp and
    the rounding too. *)
Lemma anomalous_sample_strict (m : t) (lo hi : Z) (mult : Q) (w : World) :
  unit_draws_ok (rng w) ->
  Min m == Num.hundredths lo -> Max m == Num.hundredths hi ->
  0 < Min m -> 0 <= Variation m -> 0 <= mult ->
  0.01 <= Variation m * 0.5 * mult ->
  exists (v : Q) (w' : World),
    calculate_random_value m true mult w = Ok (v, w') /\
    unit_draws_ok (rng w') /\
    Spec.outside m v.
Proof.
  intros Hok Elo Ehi Hmin Hv Hm Hexc.
  destruct (raw_value_anomalous m mult w) as [up Hraw].
  specialize (Hraw mult).
  set (u := unit_draw (rng w) (S (cursor (rng w)))) in *.
  assert (Hu : 0 <= u) by apply Hok.
  assert (Hbig : 0.01 <= Spec.excursion m u mult).
  { unfold Spec.excursion.
    assert (0 <= Variation m * u) by (apply Qmult_le_0_compat; lra).
    assert (0 <= Variation m * u * mult) by (apply Qmult_le_0_compat; lra).
    lra. }
  do 2 eexists. split; [apply calculate_random_value_run, Hraw |].
  split; [now repeat apply advance_rng_ok |].
  unfold Spec.outside. destruct up.
  - right.
    assert (Hstep : Num.hundredths (hi + 1)
                    <= Qmax 0 (Max m + Spec.excursion m u mult)).
    { rewrite hundredths_succ. qminmax; lra. }
    apply round2_mono in Hstep.
    rewrite round2_hundredths, hundredths_succ in Hstep. lra.
  - left.
    assert (Hpred : 0 <= Num.hundredths (lo - 1))
      by (apply hundredths_pred_nonneg; lra).
    assert (Hstep : Qmax 0 (Min m - Spec.excursion m u mult)
                    <= Num.hundredths (lo - 1)).
    { rewrite hundredths_pred in *. qminmax; lra. }
    apply round2_mono in Hstep.
    rewrite round2_hundredths, hundredths_pred in Hstep. lra.
Qed.

(** With Variation 0 and two-decimal bounds that are not negative, the
    anomalous sample is one of the bounds. *)
Lemma zero_variation_sample (m : t) (lo hi : Z) (mult : Q) (w : World) :
  Variation m == 0 ->
  Min m == Num.hundredths lo -> Max m == Num.hundredths hi ->
  0 <= Min m -> 0 <= Max m ->
  exists (v : Q) (w' : World),
    calculate_random_value m true mult w = Ok (v, w') /\
    (unit_draws_ok (rng w) -> unit_draws_ok (rng w')) /\
    (v == Min m \/ v == Max m).
Proof.
  intros Hv Elo Ehi Hmin Hmax.
  destruct (raw_value_anomalous m mult w) as [up Hraw].
  specialize (Hraw mult).
  set (u := unit_draw (rng w) (S (cursor (rng w)))) in *.
  pose proof (excursion_zero m u mult Hv) as Hz.
  do 2 eexists. split; [apply calculate_random_value_run, Hraw |].
  split; [intros H; now repeat apply advance_rng_ok |].
  destruct up.
  - right. rewrite (round2_comp _ (Num.hundredths hi)) by (qminmax; lra).
    rewrite round2_hundredths. now symmetry.
  - left. rewrite (round2_comp _ (Num.hundredths lo)) by (qminmax; lra).
    rewrite round2_hundredths. now symmetry.
Qed.

End Sampling.

(** ** The catalogs *)

Section Catalog.

Import AssetType.

Lemma get_types_cases (name : string) (ty : t) :
  get_types !! name = Some ty ->
  ty = Assembly \/ ty = Press \/ ty = Conveyor \/ ty = Packaging.
Proof.
  intros H. unfold get_types in H.
  apply elem_of_list_to_map_2 in H.
  rewrite !elem_of_cons, elem_of_nil in H.
  destruct H as [H | [H | [H | [H | []]]]]; injection H as _ ->; tauto.
Qed.

Lemma get_types_Press : get_types !! "Press"%string = Some Press.
Proof. reflexivity. Qed.

(** C9: each of the sixteen metrics of the table has [Min < Max], a
    positive DefectFactor and a Variation that is not negative; every
    Humidity metric has Variation 0, so its anomalous sample has excursion
    0 and is exactly Min or Max, never outside the nominal range. *)
Theorem catalog_metrics_invariant (name : string) (ty : t) :
  get_types !! name = Some ty ->
  (forall m : AssetMetric.t,
      In m (metrics ty) ->
      AssetMetric.Min m < AssetMetric.Max m /\
      0 < AssetMetric.DefectFactor m /\
      0 <= AssetMetric.Variation m) /\
  AssetMetric.Variation (Humidity ty) == 0 /\
  (forall u mult : Q, Spec.excursion (Humidity ty) u mult == 0) /\
  forall (mult : Q) (w : World),
    exists (raw v : Q) (w' : World),
      AssetMetric.raw_value (Humidity ty) true mult w = Ok (raw, w') /\
      AssetMetric.calculate_random_value (Humidity ty) true mult w
      = Ok (v, w') /\
      (raw == AssetMetric.Min (Humidity ty) \/
       raw == AssetMetric.Max (Humidity ty)) /\
      (v == AssetMetric.Min (Humidity ty) \/
       v == AssetMetric.Max (Humidity ty)) /\
      ~ Spec.outside (Humidity ty) v.
Proof.
  intros Hty.
  assert (Hhum : Humidity ty = AssetMetric.mk 30 70 0 15)
    by (destruct (get_types_cases _ _ Hty) as [-> | [-> | [-> | ->]]];
        reflexivity).
  split; [| split; [| split]].
  - destruct (get_types_cases _ _ Hty) as [-> | [-> | [-> | ->]]];
      intros m [<- | [<- | [<- | [<- | []]]]]; cbn;
      repeat split; try reflexivity; discriminate.
  - rewrite Hhum. reflexivity.
  - intros u mult. apply excursion_zero. rewrite Hhum. reflexivity.
  - intros mult w. rewrite Hhum.
    destruct (raw_value_anomalous (AssetMetric.mk 30 70 0 15) mult w)
      as [up Hraw].
    specialize (Hraw mult).
    set (u := unit_draw (rng w) (S (cursor (rng w)))) in *.
    assert (Hz : Spec.excursion (AssetMetric.mk 30 70 0 15) u mult == 0)
      by (apply excursion_zero; reflexivity).
    do 3 eexists. split; [exact Hraw |].
    split; [apply calculate_random_value_run; exact Hraw |].
    cbn [AssetMetric.Min AssetMetric.Max].
    destruct up.
    + assert (E : Num.round2
                    (Qmax 0 (70 + Spec.excursion
                                    (AssetMetric.mk 30 70 0 15) u mult))
                  == 70).
      { rewrite (round2_comp _ 70) by (qminmax; lra).
        reflexivity. }
      split; [right; lra |]. split; [right; exact E |].
      unfold Spec.outside. cbn [AssetMetric.Min AssetMetric.Max]. lra.
    + assert (E : Num.round2
                    (Qmax 0 (30 - Spec.excursion
                                    (AssetMetric.mk 30 70 0 15) u mult))
                  == 30).
      { rewrite (round2_comp _ 30) by (qminmax; lra).
        reflexivity. }
      split; [left; lra |]. split; [left; exact E |].
      unfold Spec.outside. cbn [AssetMetric.Min AssetMetric.Max]. lra.
Qed.

Lemma catalog_metrics_invariant_witness :
  AssetMetric.Variation (Humidity Press) == 0 /\
  exists (v : Q) (w' : World),
    AssetMetric.calculate_random_value (Humidity Press) true 3
      (Examples.world 0.5 [1%nat] (fun _ => 0%Z)) = Ok (v, w') /\
    ~ Spec.outside (Humidity Press) v.
Proof.
  destruct (catalog_metrics_invariant "Press" Press get_types_Press)
    as (_ & Hvar & _ & Hsample).
  split; [exact Hvar |].
  destruct (Hsample 3 (Examples.world 0.5 [1%nat] (fun _ => 0%Z)))
    as (raw & v & w' & _ & Hrun & _ & _ & Hout).
  exists v, w'. split; [exact Hrun | exact Hout].
Defined.

(** C10: the asset types named by [Asset.get_type_map()] are exactly the
    keys of [AssetType.get_types()], namely Assembly, Press, Conveyor and
    Packaging; hence every asset name of the map resolves to an asset
    type. *)
Theorem type_map_values_are_catalog_keys :
  map_img Asset.get_type_map = dom get_types /\
  dom get_types
  = ({["Assembly"; "Press"; "Conveyor"; "Packaging"]}%string : gset string) /\
  forall asset_name type_name : string,
    Asset.get_type_map !! asset_name = Some type_name ->
    exists ty : t,
      get_types !! type_name = Some ty /\ Name ty = type_name.
Proof.
  assert (Hdom : dom get_types
                 = ({["Assembly"; "Press"; "Conveyor"; "Packaging"]}%string
                    : gset string)).
  { unfold get_types. rewrite dom_list_to_map_L. cbn. set_solver. }
  assert (Himg : (map_img Asset.get_type_map : gset string)
                 = ({["Assembly"; "Press"; "Conveyor"; "Packaging"]}%string
                    : gset string)).
  { unfold Asset.get_type_map. cbn [list_to_map foldr uncurry].
    rewrite !map_img_insert_notin_L by (vm_compute; reflexivity).
    rewrite map_img_empty_L. set_solver. }
  split; [now rewrite Himg, Hdom |]. split; [exact Hdom |].
  intros asset_name type_name H. unfold Asset.get_type_map in H.
  apply elem_of_list_to_map_2 in H.
  rewrite !elem_of_cons, elem_of_nil in H.
  destruct H as [H | [H | [H | [H | []]]]]; injection H as _ ->;
    eexists; (split; [reflexivity | reflexivity]).
Qed.

Lemma type_map_values_are_catalog_keys_witness :
  exists ty : t,
    get_types !! "Conveyor"%string = Some ty /\ Name ty = "Conveyor"%string.
Proof.
  destruct type_map_values_are_catalog_keys as (_ & _ & Hresolve).
  apply (Hresolve "Conveyor Belt"%string). reflexivity.
Defined.

End Catalog.

(** ** The defect probability *)

Section DefectProbability.

Import AssetType.

Lemma jitter_between (w : World) :
  unit_draws_ok (rng w) -> 0.8 <= Spec.jitter w /\ Spec.jitter w <= 1.2.
Proof.
  intros Hok. destruct (Hok (cursor (rng w))) as [H0 H1].
  unfold Spec.jitter. split; lra.
Qed.

Lemma calculate_defect_probability_run (self : t)
    (vibration temperature speed vf tf sf : Q) (w : World) :
  AssetMetric.calc_defect_factor (Vibration self) vibration = Ok vf ->
  AssetMetric.calc_defect_factor (Temperature self) temperature = Ok tf ->
  AssetMetric.calc_defect_factor (Speed self) speed = Ok sf ->
  calculate_defect_probability self vibration temperature speed w
  = Ok (Qmin (Num.round2 ((vf * 0.4 + tf * 0.3 + sf * 0.3) * Spec.jitter w)) 1,
        Random.advance w).
Proof.
  intros Hv Ht Hs.
  unfold calculate_defect_probability, bind, lift.
  rewrite Hv, Ht, Hs. reflexivity.
Qed.

Lemma calculate_defect_probability_raises (self : t)
    (vibration temperature speed : Q) (w : World) :
  AssetMetric.DefectFactor (Vibration self) == 0 \/
  AssetMetric.DefectFactor (Temperature self) == 0 \/
  AssetMetric.DefectFactor (Speed self) == 0 ->
  calculate_defect_probability self vibration temperature speed w
  = Raise ZeroDivisionError.
Proof.
  intros H. unfold calculate_defect_probability, bind, lift.
  destruct (AssetMetric.calc_defect_factor (Vibration self) vibration)
    as [vf | e] eqn:Ev.
  2:{ revert Ev. unfold AssetMetric.calc_defect_factor, AssetMetric.truediv.
      repeat destruct (Qeq_bool _ _); congruence. }
  destruct (AssetMetric.calc_defect_factor (Temperature self) temperature)
    as [tf | e] eqn:Et.
  2:{ revert Et. unfold AssetMetric.calc_defect_factor, AssetMetric.truediv.
      repeat destruct (Qeq_bool _ _); congruence. }
  destruct (AssetMetric.calc_defect_factor (Speed self) speed)
    as [sf | e] eqn:Es.
  2:{ revert Es. unfold AssetMetric.calc_defect_factor, AssetMetric.truediv.
      repeat destruct (Qeq_bool _ _); congruence. }
  destruct H as [H | [H | H]];
    [ rewrite (calc_defect_factor_zero _ vibration H) in Ev
    | rewrite (calc_defect_factor_zero _ temperature H) in Et
    | rewrite (calc_defect_factor_zero _ speed H) in Es ]; discriminate.
Qed.

(** In exact arithmetic, where [round] breaks a tie towards the even
    neighbour, the result is the specification's formula at the jitter
    drawn. *)
Lemma calculate_defect_probability_exact (self : t)
    (vibration temperature speed vf tf sf : Q) (w : World) :
  AssetMetric.calc_defect_factor (Vibration self) vibration = Ok vf ->
  AssetMetric.calc_defect_factor (Temperature self) temperature = Ok tf ->
  AssetMetric.calc_defect_factor (Speed self) speed = Ok sf ->
  exists p : Q,
    calculate_defect_probability self vibration temperature speed w
    = Ok (p, Random.advance w) /\
    p == Spec.defect_probability vf tf sf (Spec.jitter w).
Proof.
  intros Hv Ht Hs. eexists. split.
  - exact (calculate_defect_probability_run _ _ _ _ _ _ _ w Hv Ht Hs).
  - unfold Spec.defect_probability.
    rewrite (round2_comp ((0.4 * vf + 0.3 * tf + 0.3 * sf) * Spec.jitter w)
               ((vf * 0.4 + tf * 0.3 + sf * 0.3) * Spec.jitter w)) by ring.
    apply Q.min_comm.
Qed.



(** C7: for an asset type whose three scored metrics have a nonzero
    DefectFactor, any readings and any jitter draw, the defect probability
    is returned and lies between 0 and 1. *)
Theorem defect_probability_unit_interval (self : t)
    (vibration temperature speed : Q) (w : World) :
  unit_draws_ok (rng w) ->
  ~ AssetMetric.DefectFactor (Vibration self) == 0 ->
  ~ AssetMetric.DefectFactor (Temperature self) == 0 ->
  ~ AssetMetric.DefectFactor (Speed self) == 0 ->
  exists (p : Q) (w' : World),
    calculate_defect_probability self vibration temperature speed w
    = Ok (p, w') /\
    0 <= p /\ p <= 1.
Proof.
  intros Hok Dv Dt Ds.
  pose proof (calc_defect_factor_ok (Vibration self) vibration Dv) as Hv.
  pose proof (calc_defect_factor_ok (Temperature self) temperature Dt) as Ht.
  pose proof (calc_defect_factor_ok (Speed self) speed Ds) as Hs.
  pose proof (calc_defect_factor_nonneg _ _ _ Hv) as Pv.
  pose proof (calc_defect_factor_nonneg _ _ _ Ht) as Pt.
  pose proof (calc_defect_factor_nonneg _ _ _ Hs) as Ps.
  destruct (jitter_between w Hok) as [Hj0 Hj1].
  do 2 eexists. split.
  - eapply calculate_defect_probability_run; eassumption.
  - set (vf := Qmax _ _) in *. clearbody vf.
    set (tf := Qmax _ _) in *. clearbody tf.
    set (sf := Qmax _ _) in *. clearbody sf.
    assert (Hsum : 0 <= (vf * 0.4 + tf * 0.3 + sf * 0.3) * Spec.jitter w)
      by (apply Qmult_le_0_compat; lra).
    apply round2_mono in Hsum.
    assert (E0 : Num.round2 0 == 0) by reflexivity.
    rewrite E0 in Hsum.
    qminmax; lra.
Qed.

Lemma defect_probability_unit_interval_witness :
  exists (p : Q) (w' : World),
    calculate_defect_probability Conveyor 5 300 0
      (Examples.world 0.75 [] (fun _ => 0%Z)) = Ok (p, w') /\
    0 <= p /\ p <= 1.
Proof.
  apply (defect_probability_unit_interval Conveyor 5 300 0
           (Examples.world 0.75 [] (fun _ => 0%Z))).
  - intros i. cbn. lra.
  - discriminate.
  - discriminate.
  - discriminate.
Defined.

End DefectProbability.

(** ** Event synthesis *)

Section Synthesis.

Import AssetType.

Lemma maybe_append_run (name : string) (l : list string) (w : World) :
  exists pick : bool,
    maybe_append name l w
    = Ok (if pick then l ++ [name] else l, Random.advance w).
Proof.
  destruct (choice_bool_run w) as [pick Hpick].
  exists pick. unfold maybe_append.
  rewrite (bind_run _ _ _ _ _ Hpick). reflexivity.
Qed.

(** The selection always returns; when an anomaly is asked for, at least
    one of the four metric names is selected. *)
Lemma select_anomaly_metrics_run (anomaly : bool) (w : World) :
  exists (l : list string) (w' : World),
    select_anomaly_metrics anomaly w = Ok (l, w') /\
    (unit_draws_ok (rng w) -> unit_draws_ok (rng w')) /\
    (anomaly = true ->
     contains "vibration" l = true \/ contains "temperature" l = true \/
     contains "humidity" l = true \/ contains "speed" l = true).
Proof.
  destruct anomaly.
  2:{ exists [], w.
      split; [reflexivity | split; [tauto | discriminate]]. }
  unfold select_anomaly_metrics.
  destruct (maybe_append_run "vibration" [] w) as [b1 H1].
  rewrite (bind_run _ _ _ _ _ H1).
  set (l1 := if b1 then _ else _).
  destruct (maybe_append_run "temperature" l1 (Random.advance w))
    as [b2 H2].
  rewrite (bind_run _ _ _ _ _ H2).
  set (l2 := if b2 then _ else _).
  destruct (maybe_append_run "humidity" l2
              (Random.advance (Random.advance w))) as [b3 H3].
  rewrite (bind_run _ _ _ _ _ H3).
  set (l3 := if b3 then _ else _).
  destruct (maybe_append_run "speed" l3
              (Random.advance (Random.advance (Random.advance w))))
    as [b4 H4].
  rewrite (bind_run _ _ _ _ _ H4).
  set (w4 := Random.advance _).
  destruct (choice_metric_run w4) as (x & Hx & Hin).
  destruct b1, b2, b3, b4; cbn in *;
    try (do 2 eexists; split; [reflexivity |];
         split; [intros H; exact H | intros _; cbv; tauto]).
  rewrite (bind_run _ _ _ _ _ Hx).
  do 2 eexists. split; [reflexivity |].
  split; [intros H; exact H |]. intros _.
  destruct Hin as [<- | [<- | [<- | [<- | []]]]]; cbv; tauto.
Qed.

Lemma uuid4_str_run (w : World) :
  Uuid.uuid4_str w
  = Ok (Uuid.str (Uuid.uuid4_int (urandom16 w (urandom_reads w))),
        mkWorld (rng w) (urandom16 w) (S (urandom_reads w))).
Proof. reflexivity. Qed.

(** Every metric of the table has two-decimal bounds above 0 and a nonzero
    DefectFactor. *)
Lemma catalog_metric_shape (name : string) (ty : t) (m : AssetMetric.t) :
  get_types !! name = Some ty ->
  In m (metrics ty) ->
  AssetMetric.Min m
  == Num.hundredths (Qfloor (AssetMetric.Min m * 100)) /\
  AssetMetric.Max m
  == Num.hundredths (Qfloor (AssetMetric.Max m * 100)) /\
  0 < AssetMetric.Min m /\ 0 < AssetMetric.Max m /\
  ~ AssetMetric.DefectFactor m == 0.
Proof.
  intros Hty Hin.
  destruct (get_types_cases _ _ Hty) as [-> | [-> | [-> | ->]]];
    destruct Hin as [<- | [<- | [<- | [<- | []]]]];
    (repeat match goal with |- _ /\ _ => split end;
     [ reflexivity | reflexivity | reflexivity | reflexivity
     | discriminate ]).
Qed.

(** The scored metrics have a Variation of at least 0.08; Humidity has
    Variation 0. *)
Lemma catalog_variation (name : string) (ty : t) :
  get_types !! name = Some ty ->
  0.08 <= AssetMetric.Variation (Vibration ty) /\
  0.08 <= AssetMetric.Variation (Temperature ty) /\
  0.08 <= AssetMetric.Variation (Speed ty) /\
  AssetMetric.Variation (Humidity ty) == 0.
Proof.
  intros Hty.
  destruct (get_types_cases _ _ Hty) as [-> | [-> | [-> | ->]]];
    (repeat match goal with |- _ /\ _ => split end;
     [ discriminate | discriminate | discriminate | reflexivity ]).
Qed.

Lemma flagged_sample (m : AssetMetric.t) (lo hi : Z) (mult : Q) (w : World)
    (flag : bool) :
  unit_draws_ok (rng w) ->
  AssetMetric.Min m == Num.hundredths lo ->
  AssetMetric.Max m == Num.hundredths hi ->
  0 < AssetMetric.Min m ->
  0.08 <= AssetMetric.Variation m -> 0.25 <= mult ->
  exists (v : Q) (w' : World),
    AssetMetric.calculate_random_value m flag mult w = Ok (v, w') /\
    unit_draws_ok (rng w') /\
    (flag = true -> Spec.outside m v).
Proof.
  intros Hok Elo Ehi Hmin Hvar Hmult.
  destruct flag.
  - assert (Hprod : 0.08 * 0.25 <= AssetMetric.Variation m * mult)
      by (apply Qmult_le_compat_nonneg; split; (discriminate || assumption)).
    destruct (anomalous_sample_strict m lo hi mult w)
      as (v & w' & Hrun & Hok' & Hout); try assumption; try lra.
    exists v, w'. tauto.
  - destruct (calculate_random_value_total m false mult w)
      as (v & w' & Hrun & Hok').
    exists v, w'. split; [exact Hrun |]. split; [auto | discriminate].
Qed.

Lemma flagged_zero_variation (m : AssetMetric.t) (lo hi : Z) (mult : Q)
    (w : World) (flag : bool) :
  unit_draws_ok (rng w) ->
  AssetMetric.Variation m == 0 ->
  AssetMetric.Min m == Num.hundredths lo ->
  AssetMetric.Max m == Num.hundredths hi ->
  0 < AssetMetric.Min m -> 0 < AssetMetric.Max m ->
  exists (v : Q) (w' : World),
    AssetMetric.calculate_random_value m flag mult w = Ok (v, w') /\
    unit_draws_ok (rng w') /\
    (flag = true -> v == AssetMetric.Min m \/ v == AssetMetric.Max m).
Proof.
  intros Hok Hvar Elo Ehi Hmin Hmax.
  destruct flag.
  - destruct (zero_variation_sample m lo hi mult w)
      as (v & w' & Hrun & Hok' & Hon); try assumption; try lra.
    exists v, w'. tauto.
  - destruct (calculate_random_value_total m false mult w)
      as (v & w' & Hrun & Hok').
    exists v, w'. split; [exact Hrun |]. split; [auto | discriminate].
Qed.

(** C1, as amended: for an asset type of the table and a multiplier of at
    least 0.25, an anomalous event is returned and has a reading that is
    not strictly inside its nominal range: Vibration, Temperature or Speed
    strictly outside it, or Humidity exactly on its Min or Max. *)
Theorem anomalous_event_reading (name : string) (ty : t)
    (asset_id product_id batch_id : string) (timestamp : datetime)
    (mult : Q) (w : World) :
  get_types !! name = Some ty ->
  unit_draws_ok (rng w) ->
  0.25 <= mult ->
  exists (ev : Event.t) (w' : World),
    create_random_event ty asset_id product_id batch_id timestamp true mult w
    = Ok (ev, w') /\
    (Spec.outside (Vibration ty) (Event.Vibration ev) \/
     Spec.outside (Temperature ty) (Event.Temperature ev) \/
     Spec.outside (Speed ty) (Event.Speed ev) \/
     Event.Humidity ev == AssetMetric.Min (Humidity ty) \/
     Event.Humidity ev == AssetMetric.Max (Humidity ty)).
Proof.
  intros Hty Hok Hmult.
  destruct (catalog_variation _ _ Hty) as (Vv & Vt & Vs & Vh).
  destruct (catalog_metric_shape _ _ (Vibration ty) Hty)
    as (Lv & Uv & Pv & _ & Dv); [cbn; tauto |].
  destruct (catalog_metric_shape _ _ (Temperature ty) Hty)
    as (Lt & Ut & Pt & _ & Dt); [cbn; tauto |].
  destruct (catalog_metric_shape _ _ (Humidity ty) Hty)
    as (Lh & Uh & Ph & Qh & _); [cbn; tauto |].
  destruct (catalog_metric_shape _ _ (Speed ty) Hty)
    as (Ls & Us & Ps & _ & Ds); [cbn; tauto |].
  destruct (select_anomaly_metrics_run true w) as (l & w0 & Hsel & Hok0 & Hany).
  specialize (Hok0 Hok). specialize (Hany eq_refl).
  destruct (flagged_sample _ _ _ mult w0 (contains "vibration" l)
              Hok0 Lv Uv Pv Vv Hmult) as (v1 & w1 & R1 & Hok1 & O1).
  destruct (flagged_sample _ _ _ mult w1 (contains "temperature" l)
              Hok1 Lt Ut Pt Vt Hmult) as (v2 & w2 & R2 & Hok2 & O2).
  destruct (flagged_zero_variation _ _ _ mult w2 (contains "humidity" l)
              Hok2 Vh Lh Uh Ph Qh) as (v3 & w3 & R3 & Hok3 & O3).
  destruct (flagged_sample _ _ _ mult w3 (contains "speed" l)
              Hok3 Ls Us Ps Vs Hmult) as (v4 & w4 & R4 & Hok4 & O4).
  pose proof (calculate_defect_probability_run ty v1 v2 v4 _ _ _ w4
                (calc_defect_factor_ok _ _ Dv) (calc_defect_factor_ok _ _ Dt)
                (calc_defect_factor_ok _ _ Ds)) as R5.
  unfold create_random_event.
  rewrite (bind_run _ _ _ _ _ Hsel). cbn [andb].
  rewrite (bind_run _ _ _ _ _ R1), (bind_run _ _ _ _ _ R2),
    (bind_run _ _ _ _ _ R3), (bind_run _ _ _ _ _ R4),
    (bind_run _ _ _ _ _ R5), (bind_run _ _ _ _ _ (uuid4_str_run _)).
  do 2 eexists. split; [reflexivity |].
  cbn [Event.Vibration Event.Temperature Event.Humidity Event.Speed].
  destruct Hany as [H | [H | [H | H]]]; auto.
Qed.

Lemma anomalous_event_reading_witness :
  exists (ev : Event.t) (w' : World),
    create_random_event Press "asset-1" "product-1" "batch-1" 0%Z true 1
      (Examples.world 0.5 [] (fun _ => 0%Z)) = Ok (ev, w') /\
    (Spec.outside (Vibration Press) (Event.Vibration ev) \/
     Spec.outside (Temperature Press) (Event.Temperature ev) \/
     Spec.outside (Speed Press) (Event.Speed ev) \/
     Event.Humidity ev == AssetMetric.Min (Humidity Press) \/
     Event.Humidity ev == AssetMetric.Max (Humidity Press)).
Proof.
  apply (anomalous_event_reading "Press" Press).
  - reflexivity.
  - intros i. cbn. lra.
  - discriminate.
Defined.

(** C1 fails as stated: on Press, when the four coin flips miss and the
    forced choice is humidity, the anomalous event has Humidity 70, its
    Max, and the other three readings inside their ranges: no reading is
    strictly outside. *)
Lemma anomalous_event_all_within :
  let w := Examples.world 0.5 [1; 1; 1; 1; 2]%nat (fun _ => 0%Z) in
  unit_draws_ok (rng w) /\
  exists (ev : Event.t) (w' : World),
    create_random_event Press "asset-1" "product-1" "batch-1" 0%Z true 1 w
    = Ok (ev, w') /\
    Event.Humidity ev == 70 /\
    Spec.within (Vibration Press) (Event.Vibration ev) /\
    Spec.within (Temperature Press) (Event.Temperature ev) /\
    Spec.within (Humidity Press) (Event.Humidity ev) /\
    Spec.within (Speed Press) (Event.Speed ev) /\
    ~ (Spec.outside (Vibration Press) (Event.Vibration ev) \/
       Spec.outside (Temperature Press) (Event.Temperature ev) \/
       Spec.outside (Humidity Press) (Event.Humidity ev) \/
       Spec.outside (Speed Press) (Event.Speed ev)).
Proof.
  cbv zeta. split; [intros i; cbn; lra |].
  do 2 eexists. split; [cbv; reflexivity |].
  cbn [Event.Vibration Event.Temperature Event.Humidity Event.Speed].
  unfold Spec.within, Spec.outside.
  cbn [Press Vibration Temperature Humidity Speed
       AssetMetric.Min AssetMetric.Max].
  repeat match goal with |- _ /\ _ => split end;
    try reflexivity; try discriminate.
  intros [[H | H] | [[H | H] | [[H | H] | [H | H]]]]; revert H;
    apply Qle_not_lt; discriminate.
Qed.

(** *** What depends on the operating system's entropy *)

Lemma rng_only_ret {A : Type} (a : A) : rng_only (ret a).
Proof. intros r e n. reflexivity. Qed.

Lemma rng_only_lift {A : Type} (x : Result A) : rng_only (lift x).
Proof. intros r e n. destruct x; reflexivity. Qed.

Lemma rng_only_bind {A B : Type} (c : M A) (k : A -> M B) :
  rng_only c -> (forall a, rng_only (k a)) -> rng_only (bind c k).
Proof.
  intros Hc Hk r e n. unfold bind.
  rewrite (Hc r e n).
  pose proof (Hc r (fun _ => 0%Z) 0%nat) as Hfix.
  destruct (c (mkWorld r (fun _ => 0%Z) 0%nat)) as [[a w'] | x];
    cbn [reseat] in *; [| reflexivity].
  injection Hfix as Hw'. rewrite (Hk a (rng w') e n).
  now rewrite <- Hw'.
Qed.

(** Running a computation that ignores the entropy, then a continuation. *)
Lemma bind_rng_only {A B : Type} (c : M A) (k : A -> M B)
    (r : RandomState) (e : nat -> Z) (n : nat) :
  rng_only c ->
  bind c k (mkWorld r e n)
  = match c (mkWorld r (fun _ => 0%Z) 0%nat) with
    | Ok (a, w') => k a (mkWorld (rng w') e n)
    | Raise x => Raise x
    end.
Proof.
  intros Hc. unfold bind. rewrite (Hc r e n).
  destruct (c (mkWorld r (fun _ => 0%Z) 0%nat)) as [[a w'] | x];
    reflexivity.
Qed.

Lemma rng_only_random : rng_only Random.random.
Proof. intros r e n. reflexivity. Qed.

Lemma rng_only_uniform (a b : Q) : rng_only (Random.uniform a b).
Proof.
  apply rng_only_bind; [apply rng_only_random | intros u; apply rng_only_ret].
Qed.

Lemma rng_only_choice {A : Type} (seq : list A) : rng_only (Random.choice seq).
Proof.
  intros r e n. unfold Random.choice. cbn [rng].
  destruct (nth_error seq _); reflexivity.
Qed.

Lemma rng_only_calculate_random_value (m : AssetMetric.t) (a : bool)
    (mult : Q) :
  rng_only (AssetMetric.calculate_random_value m a mult).
Proof.
  unfold AssetMetric.calculate_random_value, AssetMetric.raw_value.
  repeat first
    [ progress cbv zeta
    | apply rng_only_uniform
    | apply rng_only_choice
    | apply rng_only_ret
    | match goal with |- rng_only (if ?b then _ else _) => destruct b end
    | apply rng_only_bind; [| intros ?] ].
Qed.

Lemma rng_only_calculate_defect_probability (ty : t) (v tm sp : Q) :
  rng_only (calculate_defect_probability ty v tm sp).
Proof.
  unfold calculate_defect_probability.
  repeat first
    [ progress cbv zeta
    | apply rng_only_lift
    | apply rng_only_uniform
    | apply rng_only_ret
    | apply rng_only_bind; [| intros ?] ].
Qed.

Lemma rng_only_select_anomaly_metrics (anomaly : bool) :
  rng_only (select_anomaly_metrics anomaly).
Proof.
  unfold select_anomaly_metrics, maybe_append.
  repeat first
    [ progress cbv zeta
    | apply rng_only_choice
    | apply rng_only_ret
    | match goal with |- rng_only (if ?b then _ else _) => destruct b end
    | match goal with |- rng_only (match ?l with _ => _ end) => destruct l end
    | apply rng_only_bind; [| intros ?] ].
Qed.

(** C3, as amended: from one state of the [random] generator, two calls
    with the same arguments either both raise the same exception or both
    return, with events equal in every field other than Id and with the
    same generator state afterwards; each Id is the rendering of the
    sixteen bytes read from the operating system by that call. *)
Theorem event_determined_up_to_id (ty : t)
    (asset_id product_id batch_id : string) (timestamp : datetime)
    (anomaly : bool) (mult : Q)
    (r : RandomState) (e1 e2 : nat -> Z) (n1 n2 : nat) :
  match
    create_random_event ty asset_id product_id batch_id timestamp anomaly
      mult (mkWorld r e1 n1),
    create_random_event ty asset_id product_id batch_id timestamp anomaly
      mult (mkWorld r e2 n2)
  with
  | Ok (ev1, w1), Ok (ev2, w2) =>
      Event.same_but_id ev1 ev2 /\
      rng w1 = rng w2 /\
      Event.Id ev1 = Uuid.str (Uuid.uuid4_int (e1 n1)) /\
      Event.Id ev2 = Uuid.str (Uuid.uuid4_int (e2 n2))
  | Raise x1, Raise x2 => x1 = x2
  | _, _ => False
  end.
Proof.
  unfold create_random_event.
  rewrite !(bind_rng_only _ _ _ _ _ (rng_only_select_anomaly_metrics _)).
  destruct (select_anomaly_metrics _ _) as [[l w0] | x]; [| reflexivity].
  do 4 (rewrite !(bind_rng_only _ _ _ _ _
                    (rng_only_calculate_random_value _ _ _));
        destruct (AssetMetric.calculate_random_value _ _ _ _)
          as [[? ?] | ?]; [| reflexivity]).
  rewrite !(bind_rng_only _ _ _ _ _
              (rng_only_calculate_defect_probability _ _ _ _)).
  destruct (calculate_defect_probability _ _ _ _ _) as [[p w5] | x];
    [| reflexivity].
  cbn. unfold Event.same_but_id. cbn. tauto.
Qed.

(** C3 fails as stated: the generator state is the same for both calls,
    the second call reads the operating system's entropy after the first,
    and the two events differ in their Id. *)
Lemma repeated_call_changes_id :
  let w := Examples.world 0.5 [] (fun n => Z.of_nat n) in
  match
    create_random_event Press "asset-1" "product-1" "batch-1" 0%Z false 1 w
  with
  | Ok (ev1, w1) =>
      match
        create_random_event Press "asset-1" "product-1" "batch-1" 0%Z false 1
          (mkWorld (rng w) (urandom16 w1) (urandom_reads w1))
      with
      | Ok (ev2, _) =>
          Event.Id ev1 = "00000000-0000-4000-8000-000000000000"%string /\
          Event.Id ev2 = "00000000-0000-4000-8000-000000000001"%string /\
          ev1 <> ev2
      | Raise _ => False
      end
  | Raise _ => False
  end.
Proof.
  vm_compute. split; [reflexivity |]. split; [reflexivity |]. discriminate.
Qed.

(** *** Construction and the first detection of a zero DefectFactor *)

(** The five steps of [create_random_event] before the defect
    probability always return. *)
Lemma create_random_event_run (ty : t)
    (asset_id product_id batch_id : string) (timestamp : datetime)
    (anomaly : bool) (mult : Q) (w : World) :
  exists (v tm h sp : Q) (w4 : World),
    create_random_event ty asset_id product_id batch_id timestamp anomaly
      mult w
    = bind (calculate_defect_probability ty v tm sp)
        (fun p =>
           bind Uuid.uuid4_str
             (fun id =>
                ret (Event.mk id asset_id product_id batch_id
                       v tm h sp p timestamp))) w4.
Proof.
  destruct (select_anomaly_metrics_run anomaly w) as (l & w0 & Hsel & _).
  destruct (calculate_random_value_total (Vibration ty)
              (anomaly && contains "vibration" l) mult w0)
    as (v & w1 & R1 & _).
  destruct (calculate_random_value_total (Temperature ty)
              (anomaly && contains "temperature" l) mult w1)
    as (tm & w2 & R2 & _).
  destruct (calculate_random_value_total (Humidity ty)
              (anomaly && contains "humidity" l) mult w2)
    as (h & w3 & R3 & _).
  destruct (calculate_random_value_total (Speed ty)
              (anomaly && contains "speed" l) mult w3)
    as (sp & w4 & R4 & _).
  exists v, tm, h, sp, w4.
  unfold create_random_event.
  now rewrite (bind_run _ _ _ _ _ Hsel), (bind_run _ _ _ _ _ R1),
    (bind_run _ _ _ _ _ R2), (bind_run _ _ _ _ _ R3),
    (bind_run _ _ _ _ _ R4).
Qed.

(** C8, as amended: constructing a metric or an asset type checks nothing
    and succeeds for all arguments; a zero DefectFactor of the Vibration,
    Temperature or Speed metric is first met when [create_random_event]
    divides by it and raises [ZeroDivisionError]; with nonzero
    DefectFactors the call returns an event, whatever the order of [Min]
    and [Max]. *)
Theorem construction_is_unchecked :
  (forall min max variation defect_factor : Q,
      AssetMetric.init min max variation defect_factor
      = Ok (AssetMetric.mk min max variation defect_factor)) /\
  (forall (name : string) (v tm h sp : AssetMetric.t),
      init name v tm h sp = Ok (mk name v tm h sp)) /\
  (forall (ty : t) (asset_id product_id batch_id : string)
          (timestamp : datetime) (anomaly : bool) (mult : Q) (w : World),
      AssetMetric.DefectFactor (Vibration ty) == 0 \/
      AssetMetric.DefectFactor (Temperature ty) == 0 \/
      AssetMetric.DefectFactor (Speed ty) == 0 ->
      create_random_event ty asset_id product_id batch_id timestamp anomaly
        mult w
      = Raise ZeroDivisionError) /\
  (forall (ty : t) (asset_id product_id batch_id : string)
          (timestamp : datetime) (anomaly : bool) (mult : Q) (w : World),
      ~ AssetMetric.DefectFactor (Vibration ty) == 0 ->
      ~ AssetMetric.DefectFactor (Temperature ty) == 0 ->
      ~ AssetMetric.DefectFactor (Speed ty) == 0 ->
      exists (ev : Event.t) (w' : World),
        create_random_event ty asset_id product_id batch_id timestamp anomaly
          mult w
        = Ok (ev, w')).
Proof.
  split; [reflexivity |]. split; [reflexivity |]. split.
  - intros ty asset_id product_id batch_id timestamp anomaly mult w Hz.
    destruct (create_random_event_run ty asset_id product_id batch_id
                timestamp anomaly mult w) as (v & tm & h & sp & w4 & ->).
    apply bind_raise. now apply calculate_defect_probability_raises.
  - intros ty asset_id product_id batch_id timestamp anomaly mult w Dv Dt Ds.
    destruct (create_random_event_run ty asset_id product_id batch_id
                timestamp anomaly mult w) as (v & tm & h & sp & w4 & ->).
    rewrite (bind_run _ _ _ _ _
               (calculate_defect_probability_run ty v tm sp _ _ _ w4
                  (calc_defect_factor_ok _ _ Dv)
                  (calc_defect_factor_ok _ _ Dt)
                  (calc_defect_factor_ok _ _ Ds))).
    rewrite (bind_run _ _ _ _ _ (uuid4_str_run _)).
    do 2 eexists. reflexivity.
Qed.

(** A type whose metrics all have [Min = 5 > Max = 1]: with DefectFactor 2
    an event is returned, with DefectFactor 0 the call raises. *)
Lemma construction_is_unchecked_witness :
  let good := AssetMetric.mk 5 1 0 2 in
  let bad := AssetMetric.mk 5 1 0 0 in
  let w := Examples.world 0.5 [] (fun _ => 0%Z) in
  (exists (ev : Event.t) (w' : World),
      create_random_event (mk "Reversed" good good good good)
        "asset-1" "product-1" "batch-1" 0%Z false 1 w = Ok (ev, w')) /\
  create_random_event (mk "Unscored" bad bad bad bad)
    "asset-1" "product-1" "batch-1" 0%Z false 1 w = Raise ZeroDivisionError.
Proof.
  cbv zeta.
  destruct construction_is_unchecked as (_ & _ & Hraise & Hreturn).
  split.
  - apply Hreturn; discriminate.
  - apply Hraise. left. reflexivity.
Defined.

(** C8 fails as stated: a metric with [Min = 5 > Max = 1] and DefectFactor
    0 is constructed without an error, and so is an asset type made of it;
    the zero DefectFactor shows only when an event is synthesized. *)
Lemma invalid_metric_is_constructed :
  let w := Examples.world 0.5 [] (fun _ => 0%Z) in
  match AssetMetric.init 5 1 0 0 with
  | Ok m =>
      AssetMetric.Max m < AssetMetric.Min m /\
      AssetMetric.DefectFactor m == 0 /\
      match init "Unscored" m m m m with
      | Ok ty =>
          create_random_event ty "asset-1" "product-1" "batch-1" 0%Z false 1 w
          = Raise ZeroDivisionError
      | Raise _ => False
      end
  | Raise _ => False
  end.
Proof.
  cbn. split; [reflexivity |]. split; reflexivity.
Qed.

End Synthesis.

(** ** The synthesized record *)

Section EventRecord.

Import AssetType.

(** A sample is a whole number of hundredths, never negative. *)
Lemma calculate_random_value_shape (m : AssetMetric.t) (a : bool) (mult : Q)
    (w w' : World) (v : Q) :
  AssetMetric.calculate_random_value m a mult w = Ok (v, w') ->
  exists c : Z, (0 <= c)%Z /\ v = Num.hundredths c.
Proof.
  unfold AssetMetric.calculate_random_value, bind.
  destruct (AssetMetric.raw_value m a mult w) as [[raw w1] | e];
    [| discriminate].
  intros [= <- <-].
  exists (Num.round_half_even (Qmax 0 raw * 100)). split; [| reflexivity].
  assert (H : (Num.round_half_even 0
               <= Num.round_half_even (Qmax 0 raw * 100))%Z)
    by (apply round_half_even_mono; qminmax; lra).
  exact H.
Qed.

(** How many outcomes of the generator a sample consumes. *)
Lemma calculate_random_value_consumes (m : AssetMetric.t) (a : bool)
    (mult : Q) (w w' : World) (v : Q) :
  AssetMetric.calculate_random_value m a mult w = Ok (v, w') ->
  w' = Nat.iter (if a then 3 else 1)%nat Random.advance w.
Proof.
  destruct a.
  - destruct (raw_value_anomalous m mult w) as [up Hraw].
    rewrite (calculate_random_value_run _ _ _ _ _ _ (Hraw mult)).
    now intros [= _ <-].
  - rewrite (calculate_random_value_run _ _ _ _ _ _
               (raw_value_normal m mult w)).
    now intros [= _ <-].
Qed.

(** The steps behind a returned event. *)
Lemma create_random_event_inv (ty : t)
    (asset_id product_id batch_id : string) (timestamp : datetime)
    (anomaly : bool) (mult : Q) (w w' : World) (ev : Event.t) :
  create_random_event ty asset_id product_id batch_id timestamp anomaly mult w
  = Ok (ev, w') ->
  exists (l : list string) (w0 w1 w2 w3 w4 w5 : World),
    select_anomaly_metrics anomaly w = Ok (l, w0) /\
    AssetMetric.calculate_random_value (Vibration ty)
      (anomaly && contains "vibration" l) mult w0
    = Ok (Event.Vibration ev, w1) /\
    AssetMetric.calculate_random_value (Temperature ty)
      (anomaly && contains "temperature" l) mult w1
    = Ok (Event.Temperature ev, w2) /\
    AssetMetric.calculate_random_value (Humidity ty)
      (anomaly && contains "humidity" l) mult w2
    = Ok (Event.Humidity ev, w3) /\
    AssetMetric.calculate_random_value (Speed ty)
      (anomaly && contains "speed" l) mult w3
    = Ok (Event.Speed ev, w4) /\
    calculate_defect_probability ty (Event.Vibration ev)
      (Event.Temperature ev) (Event.Speed ev) w4
    = Ok (Event.DefectProbability ev, w5) /\
    Uuid.uuid4_str w5 = Ok (Event.Id ev, w') /\
    Event.AssetId ev = asset_id /\ Event.ProductId ev = product_id /\
    Event.BatchId ev = batch_id /\ Event.Timestamp ev = timestamp.
Proof.
  unfold create_random_event, bind at 1.
  destruct (select_anomaly_metrics anomaly w) as [[l w0] | e] eqn:E0;
    [| discriminate].
  unfold bind at 1.
  destruct (AssetMetric.calculate_random_value (Vibration ty) _ mult w0)
    as [[v w1] | e] eqn:E1; [| discriminate].
  unfold bind at 1.
  destruct (AssetMetric.calculate_random_value (Temperature ty) _ mult w1)
    as [[tm w2] | e] eqn:E2; [| discriminate].
  unfold bind at 1.
  destruct (AssetMetric.calculate_random_value (Humidity ty) _ mult w2)
    as [[h w3] | e] eqn:E3; [| discriminate].
  unfold bind at 1.
  destruct (AssetMetric.calculate_random_value (Speed ty) _ mult w3)
    as [[sp w4] | e] eqn:E4; [| discriminate].
  unfold bind at 1.
  destruct (calculate_defect_probability ty v tm sp w4) as [[p w5] | e] eqn:E5;
    [| discriminate].
  rewrite (bind_run _ _ _ _ _ (uuid4_str_run w5)).
  intros [= <- <-].
  exists l, w0, w1, w2, w3, w4, w5.
  cbn [Event.Id Event.AssetId Event.ProductId Event.BatchId Event.Vibration
       Event.Temperature Event.Humidity Event.Speed Event.DefectProbability
       Event.Timestamp].
  repeat match goal with |- _ /\ _ => split end;
    try reflexivity; assumption.
Qed.

(** The score of readings that are all inside their nominal ranges. *)
Lemma calculate_defect_probability_in_range (ty : t) (v tm sp p : Q)
    (w w' : World) :
  Spec.within (Vibration ty) v ->
  Spec.within (Temperature ty) tm ->
  Spec.within (Speed ty) sp ->
  0 < AssetMetric.DefectFactor (Vibration ty) ->
  0 < AssetMetric.DefectFactor (Temperature ty) ->
  0 < AssetMetric.DefectFactor (Speed ty) ->
  calculate_defect_probability ty v tm sp w = Ok (p, w') ->
  p == 0.
Proof.
  intros Iv It Is Dv Dt Ds.
  destruct (calc_defect_factor_distance (Vibration ty) v Dv)
    as (fv & Hv & Ev).
  destruct (calc_defect_factor_distance (Temperature ty) tm Dt)
    as (ft & Ht & Et).
  destruct (calc_defect_factor_distance (Speed ty) sp Ds)
    as (fs & Hs & Es).
  rewrite (calculate_defect_probability_run _ _ _ _ _ _ _ w Hv Ht Hs).
  intros [= <- _].
  assert (Zd : forall (m : AssetMetric.t) (x : Q),
             Spec.within m x -> Spec.range_distance m x == 0).
  { intros m x [H1 H2]. unfold Spec.range_distance. qminmax; lra. }
  rewrite (Zd _ _ Iv) in Ev. rewrite (Zd _ _ It) in Et.
  rewrite (Zd _ _ Is) in Es.
  assert (Z0 : forall d : Q, 0 / d == 0) by (intros d; unfold Qdiv; ring).
  rewrite Z0 in Ev, Et, Es.
  rewrite (round2_comp _ 0) by (rewrite Ev, Et, Es; ring).
  reflexivity.
Qed.

Lemma iter_advance_rng_ok (k : nat) (w : World) :
  unit_draws_ok (rng w) -> unit_draws_ok (rng (Nat.iter k Random.advance w)).
Proof.
  intros H. induction k as [| k IH]; [exact H |].
  rewrite Nat.iter_succ. now apply advance_rng_ok.
Qed.

Lemma iter_advance_entropy (k : nat) (w : World) :
  urandom16 (Nat.iter k Random.advance w) = urandom16 w /\
  urandom_reads (Nat.iter k Random.advance w) = urandom_reads w /\
  unit_draw (rng (Nat.iter k Random.advance w)) = unit_draw (rng w) /\
  index_draw (rng (Nat.iter k Random.advance w)) = index_draw (rng w) /\
  cursor (rng (Nat.iter k Random.advance w)) = (k + cursor (rng w))%nat.
Proof.
  induction k as [| k (H1 & H2 & H3 & H4 & H5)]; [tauto |].
  rewrite Nat.iter_succ. unfold Random.advance at 1 3 5 7 9.
  cbn [rng urandom16 urandom_reads unit_draw index_draw cursor].
  rewrite H1, H2, H3, H4, H5. repeat split.
Qed.

(** The metric names selected by four coin flips, in the order of the
    appends. *)
Lemma select_anomaly_metrics_inv (w w0 : World) (l : list string) :
  select_anomaly_metrics true w = Ok (l, w0) ->
  exists b1 b2 b3 b4 : bool,
    if b1 || b2 || b3 || b4
    then l = (if b1 then ["vibration"] else [])
             ++ (if b2 then ["temperature"] else [])
             ++ (if b3 then ["humidity"] else [])
             ++ (if b4 then ["speed"] else [])
         /\ w0 = Nat.iter 4 Random.advance w
    else (exists x : string,
             In x ["vibration"; "temperature"; "humidity"; "speed"]
             /\ l = [x])
         /\ w0 = Nat.iter 5 Random.advance w.
Proof.
  unfold select_anomaly_metrics.
  destruct (maybe_append_run "vibration" [] w) as [b1 H1].
  rewrite (bind_run _ _ _ _ _ H1).
  set (l1 := if b1 then _ else _).
  destruct (maybe_append_run "temperature" l1 (Random.advance w))
    as [b2 H2].
  rewrite (bind_run _ _ _ _ _ H2).
  set (l2 := if b2 then _ else _).
  destruct (maybe_append_run "humidity" l2
              (Random.advance (Random.advance w))) as [b3 H3].
  rewrite (bind_run _ _ _ _ _ H3).
  set (l3 := if b3 then _ else _).
  destruct (maybe_append_run "speed" l3
              (Random.advance (Random.advance (Random.advance w))))
    as [b4 H4].
  rewrite (bind_run _ _ _ _ _ H4).
  set (w4 := Random.advance _).
  destruct (choice_metric_run w4) as (x & Hx & Hin).
  intros Hrun. exists b1, b2, b3, b4.
  destruct b1, b2, b3, b4; cbn in Hrun |- *;
    try (injection Hrun as <- <-; split; reflexivity).
  rewrite (bind_run _ _ _ _ _ Hx) in Hrun.
  injection Hrun as <- <-. split; [| reflexivity].
  exists x. split; [exact Hin | reflexivity].
Qed.

Lemma calculate_defect_probability_inv (ty : t) (v tm sp p : Q)
    (w w' : World) :
  calculate_defect_probability ty v tm sp w = Ok (p, w') ->
  exists vf tf sf : Q,
    AssetMetric.calc_defect_factor (Vibration ty) v = Ok vf /\
    AssetMetric.calc_defect_factor (Temperature ty) tm = Ok tf /\
    AssetMetric.calc_defect_factor (Speed ty) sp = Ok sf /\
    p = Qmin (Num.round2 ((vf * 0.4 + tf * 0.3 + sf * 0.3) * Spec.jitter w)) 1
    /\ w' = Random.advance w.
Proof.
  destruct (AssetMetric.calc_defect_factor (Vibration ty) v)
    as [vf | e] eqn:Ev.
  2:{ unfold calculate_defect_probability, bind at 1, lift.
      rewrite Ev. discriminate. }
  destruct (AssetMetric.calc_defect_factor (Temperature ty) tm)
    as [tf | e] eqn:Et.
  2:{ unfold calculate_defect_probability, bind at 1 2, lift.
      rewrite Ev, Et. discriminate. }
  destruct (AssetMetric.calc_defect_factor (Speed ty) sp)
    as [sf | e] eqn:Es.
  2:{ unfold calculate_defect_probability, bind at 1 2 3, lift.
      rewrite Ev, Et, Es. discriminate. }
  rewrite (calculate_defect_probability_run _ _ _ _ _ _ _ w Ev Et Es).
  intros [= <- <-]. exists vf, tf, sf. tauto.
Qed.

(** X1: every reading of a returned event is a whole number of
    hundredths, not negative, and the defect probability is a whole number
    of hundredths between 0 and 1. *)
Theorem event_values_shape (ty : t)
    (asset_id product_id batch_id : string) (timestamp : datetime)
    (anomaly : bool) (mult : Q) (w w' : World) (ev : Event.t) :
  unit_draws_ok (rng w) ->
  create_random_event ty asset_id product_id batch_id timestamp anomaly mult w
  = Ok (ev, w') ->
  (forall x : Q,
      In x [Event.Vibration ev; Event.Temperature ev; Event.Humidity ev;
            Event.Speed ev] ->
      exists c : Z, (0 <= c)%Z /\ x = Num.hundredths c) /\
  exists d : Z,
    (0 <= d <= 100)%Z /\ Event.DefectProbability ev == Num.hundredths d.
Proof.
  intros Hok Hrun.
  destruct (create_random_event_inv _ _ _ _ _ _ _ _ _ _ Hrun)
    as (l & w0 & w1 & w2 & w3 & w4 & w5
        & E0 & E1 & E2 & E3 & E4 & E5 & _).
  split.
  - intros x [<- | [<- | [<- | [<- | []]]]];
      eapply calculate_random_value_shape; eassumption.
  - assert (Hok4 : unit_draws_ok (rng w4)).
    { apply calculate_random_value_consumes in E1, E2, E3, E4.
      subst w4 w3 w2 w1. repeat apply iter_advance_rng_ok.
      destruct anomaly.
      - destruct (select_anomaly_metrics_inv _ _ _ E0)
          as (b1 & b2 & b3 & b4 & Hsel).
        destruct (b1 || b2 || b3 || b4); destruct Hsel as [_ ->];
          now apply iter_advance_rng_ok.
      - injection E0 as _ <-. exact Hok. }
    destruct (calculate_defect_probability_inv _ _ _ _ _ _ _ E5)
      as (vf & tf & sf & Hv & Ht & Hs & -> & _).
    pose proof (calc_defect_factor_nonneg _ _ _ Hv) as Pv.
    pose proof (calc_defect_factor_nonneg _ _ _ Ht) as Pt.
    pose proof (calc_defect_factor_nonneg _ _ _ Hs) as Ps.
    destruct (jitter_between w4 Hok4) as [Hj0 Hj1].
    set (x := (vf * 0.4 + tf * 0.3 + sf * 0.3) * Spec.jitter w4).
    assert (Hx : 0 <= x) by (apply Qmult_le_0_compat; lra).
    assert (Hr : (0 <= Num.round_half_even (x * 100))%Z).
    { assert (H : (Num.round_half_even 0
                   <= Num.round_half_even (x * 100))%Z)
        by (apply round_half_even_mono; lra).
      exact H. }
    change (Num.round2 x) with (Num.hundredths (Num.round_half_even (x * 100))).
    destruct (Z_le_gt_dec (Num.round_half_even (x * 100)) 100) as [Hle | Hgt].
    + exists (Num.round_half_even (x * 100)). split; [lia |].
      rewrite Zle_Qle in Hle. unfold Num.hundredths in *.
      change (inject_Z 100) with 100 in Hle. qminmax; lra.
    + exists 100%Z. split; [lia |].
      assert (Hgt' : (100 < Num.round_half_even (x * 100))%Z) by lia.
      rewrite Zlt_Qlt in Hgt'. unfold Num.hundredths in *.
      change (inject_Z 100) with 100 in *. qminmax; lra.
Qed.

Lemma event_values_shape_witness :
  exists (ev : Event.t) (d : Z),
    (0 <= d <= 100)%Z /\ Event.DefectProbability ev == Num.hundredths d /\
    exists w' : World,
      create_random_event Conveyor "asset-1" "product-1" "batch-1" 0%Z true 9
        (Examples.world 0.5 [] (fun _ => 0%Z)) = Ok (ev, w').
Proof.
  destruct (create_random_event Conveyor "asset-1" "product-1" "batch-1" 0%Z
              true 9 (Examples.world 0.5 [] (fun _ => 0%Z)))
    as [[ev w'] | e] eqn:Hrun; [| vm_compute in Hrun; discriminate Hrun].
  destruct (event_values_shape _ _ _ _ _ _ _ _ _ _
              (world_unit_draws_ok 0.5 [] (fun _ => 0%Z)
                 ltac:(discriminate) ltac:(reflexivity))
              Hrun) as (_ & d & Hd & Ed).
  exists ev, d. split; [exact Hd |]. split; [exact Ed |].
  exists w'. reflexivity.
Defined.

(** A normal sample of a metric with two-decimal bounds, [0 <= Min <= Max],
    stays in the nominal range. *)
Lemma normal_sample_within (m : AssetMetric.t) (lo hi : Z) (mult : Q)
    (w : World) :
  unit_draws_ok (rng w) ->
  AssetMetric.Min m == Num.hundredths lo ->
  AssetMetric.Max m == Num.hundredths hi ->
  0 <= AssetMetric.Min m -> AssetMetric.Min m <= AssetMetric.Max m ->
  exists (v : Q) (w' : World),
    AssetMetric.calculate_random_value m false mult w = Ok (v, w') /\
    unit_draws_ok (rng w') /\
    Spec.within m v.
Proof.
  intros Hok Elo Ehi Hmin Hmm.
  destruct (Hok (cursor (rng w))) as [Hu0 Hu1].
  destruct (uniform_between _ _ _ Hmm Hu0 Hu1) as [Hlo Hhi].
  set (raw := AssetMetric.Min m
              + (AssetMetric.Max m - AssetMetric.Min m)
                * unit_draw (rng w) (cursor (rng w))) in *.
  exists (Num.round2 (Qmax 0 raw)), (Random.advance w).
  split; [apply calculate_random_value_run, raw_value_normal |].
  split; [now apply advance_rng_ok |].
  assert (Eraw : Qmax 0 raw == raw) by (qminmax; lra).
  unfold Spec.within. split.
  - rewrite Elo, <- (round2_hundredths lo). apply round2_mono. lra.
  - rewrite Ehi, <- (round2_hundredths hi). apply round2_mono. lra.
Qed.

(** X2: for an asset type of the table, an event synthesized without
    anomaly is returned, has all four readings inside their nominal
    ranges, and has defect probability 0, for every multiplier and every
    outcome of the draws. *)
Theorem normal_event_within_ranges (name : string) (ty : t)
    (asset_id product_id batch_id : string) (timestamp : datetime)
    (mult : Q) (w : World) :
  get_types !! name = Some ty ->
  unit_draws_ok (rng w) ->
  exists (ev : Event.t) (w' : World),
    create_random_event ty asset_id product_id batch_id timestamp false mult w
    = Ok (ev, w') /\
    Spec.within (Vibration ty) (Event.Vibration ev) /\
    Spec.within (Temperature ty) (Event.Temperature ev) /\
    Spec.within (Humidity ty) (Event.Humidity ev) /\
    Spec.within (Speed ty) (Event.Speed ev) /\
    Event.DefectProbability ev == 0.
Proof.
  intros Hty Hok.
  assert (Hshape : forall m : AssetMetric.t,
             In m (metrics ty) ->
             forall w0 : World,
               unit_draws_ok (rng w0) ->
               exists (v : Q) (w1 : World),
                 AssetMetric.calculate_random_value m false mult w0
                 = Ok (v, w1) /\
                 unit_draws_ok (rng w1) /\ Spec.within m v).
  { intros m Hin w0 Hok0.
    destruct (catalog_metric_shape _ _ m Hty Hin) as (Lm & Um & Pm & _ & _).
    eapply normal_sample_within; try eassumption; [lra |].
    destruct (get_types_cases _ _ Hty) as [-> | [-> | [-> | ->]]];
      destruct Hin as [<- | [<- | [<- | [<- | []]]]]; discriminate. }
  destruct (Hshape (Vibration ty) ltac:(cbn; tauto) w Hok)
    as (v1 & w1 & R1 & Hok1 & I1).
  destruct (Hshape (Temperature ty) ltac:(cbn; tauto) w1 Hok1)
    as (v2 & w2 & R2 & Hok2 & I2).
  destruct (Hshape (Humidity ty) ltac:(cbn; tauto) w2 Hok2)
    as (v3 & w3 & R3 & Hok3 & I3).
  destruct (Hshape (Speed ty) ltac:(cbn; tauto) w3 Hok3)
    as (v4 & w4 & R4 & Hok4 & I4).
  assert (Dpos : 0 < AssetMetric.DefectFactor (Vibration ty) /\
                 0 < AssetMetric.DefectFactor (Temperature ty) /\
                 0 < AssetMetric.DefectFactor (Speed ty))
    by (destruct (get_types_cases _ _ Hty) as [-> | [-> | [-> | ->]]];
        repeat split).
  destruct Dpos as (Dv & Dt & Ds).
  assert (Nv : ~ AssetMetric.DefectFactor (Vibration ty) == 0) by lra.
  assert (Nt : ~ AssetMetric.DefectFactor (Temperature ty) == 0) by lra.
  assert (Ns : ~ AssetMetric.DefectFactor (Speed ty) == 0) by lra.
  pose proof (calculate_defect_probability_run ty v1 v2 v4 _ _ _ w4
                (calc_defect_factor_ok _ _ Nv) (calc_defect_factor_ok _ _ Nt)
                (calc_defect_factor_ok _ _ Ns)) as R5.
  pose proof (calculate_defect_probability_in_range ty v1 v2 v4 _ w4 _
                I1 I2 I4 Dv Dt Ds R5) as Z5.
  unfold create_random_event.
  rewrite (bind_run _ _ _ _ _ (eq_refl : select_anomaly_metrics false w
                                         = Ok ([], w))).
  cbn [andb].
  rewrite (bind_run _ _ _ _ _ R1), (bind_run _ _ _ _ _ R2),
    (bind_run _ _ _ _ _ R3), (bind_run _ _ _ _ _ R4),
    (bind_run _ _ _ _ _ R5), (bind_run _ _ _ _ _ (uuid4_str_run _)).
  do 2 eexists. split; [reflexivity |].
  cbn [Event.Vibration Event.Temperature Event.Humidity Event.Speed
       Event.DefectProbability].
  tauto.
Qed.

Lemma normal_event_within_ranges_witness :
  exists (ev : Event.t) (w' : World),
    create_random_event Packaging "asset-1" "product-1" "batch-1" 0%Z false 1
      (Examples.world 0.25 [] (fun _ => 0%Z)) = Ok (ev, w') /\
    Spec.within (Vibration Packaging) (Event.Vibration ev) /\
    Spec.within (Temperature Packaging) (Event.Temperature ev) /\
    Spec.within (Humidity Packaging) (Event.Humidity ev) /\
    Spec.within (Speed Packaging) (Event.Speed ev) /\
    Event.DefectProbability ev == 0.
Proof.
  apply (normal_event_within_ranges "Packaging" Packaging).
  - reflexivity.
  - apply world_unit_draws_ok; [discriminate | reflexivity].
Defined.

(** Sub-lists of the four metric names, by the names they keep. *)
Lemma metric_names_sublist (l : list string) :
  l `sublist_of` ["vibration"; "temperature"; "humidity"; "speed"]%string <->
  exists b1 b2 b3 b4 : bool,
    l = (if b1 then ["vibration"] else [])
        ++ (if b2 then ["temperature"] else [])
        ++ (if b3 then ["humidity"] else [])
        ++ (if b4 then ["speed"] else []).
Proof.
  split.
  - intros H.
    apply sublist_cons_r in H as [H | (l1 & -> & H)];
      [exists false | exists true];
      (apply sublist_cons_r in H as [H | (l2 & -> & H)];
       [exists false | exists true];
       (apply sublist_cons_r in H as [H | (l3 & -> & H)];
        [exists false | exists true];
        (apply sublist_cons_r in H as [H | (l4 & -> & H)];
         [exists false | exists true];
         apply sublist_nil_r in H as ->; reflexivity))).
  - intros (b1 & b2 & b3 & b4 & ->).
    destruct b1, b2, b3, b4; cbn; repeat constructor.
Qed.

(** X3: the list [anomaly_metrics] of an anomalous call is a non-empty
    sub-list of vibration, temperature, humidity, speed, in that order and
    without repetition; and every such sub-list is selected for some
    outcome of the draws.  Without anomaly the list is empty and nothing is
    drawn. *)
Theorem anomaly_selection_range (l : list string) :
  ((exists w w0 : World, select_anomaly_metrics true w = Ok (l, w0)) <->
   l <> [] /\
   l `sublist_of` ["vibration"; "temperature"; "humidity"; "speed"]%string)
  /\ (forall w : World, select_anomaly_metrics false w = Ok ([], w)).
Proof.
  split; [| reflexivity]. split.
  - intros (w & w0 & Hrun).
    destruct (select_anomaly_metrics_inv _ _ _ Hrun)
      as (b1 & b2 & b3 & b4 & Hsel).
    destruct (b1 || b2 || b3 || b4) eqn:Hany.
    + destruct Hsel as [-> _]. split.
      * destruct b1, b2, b3, b4; cbn in *; congruence.
      * apply metric_names_sublist. now exists b1, b2, b3, b4.
    + destruct Hsel as [(x & Hin & ->) _]. split; [discriminate |].
      destruct Hin as [<- | [<- | [<- | [<- | []]]]]; repeat constructor.
  - intros [Hne Hsub].
    apply metric_names_sublist in Hsub as (b1 & b2 & b3 & b4 & ->).
    exists (Examples.world 0
              [if b1 then 0 else 1; if b2 then 0 else 1;
               if b3 then 0 else 1; if b4 then 0 else 1]%nat
              (fun _ => 0%Z)).
    destruct b1, b2, b3, b4; try (exfalso; apply Hne; reflexivity);
      eexists; vm_compute; reflexivity.
Qed.

Lemma anomaly_selection_range_witness :
  exists w w0 : World,
    select_anomaly_metrics true w = Ok (["humidity"; "speed"]%string, w0).
Proof.
  apply (proj1 (anomaly_selection_range ["humidity"; "speed"]%string)).
  split; [discriminate |]. repeat constructor.
Defined.

(** X4: what a returned event has consumed.  The outcome sequences are
    not changed; one 16-byte read of the operating system's entropy is
    made; the cursor of the generator moves by 5 for a normal event and by
    11 to 17 for an anomalous one. *)
Theorem event_draws_consumed (ty : t)
    (asset_id product_id batch_id : string) (timestamp : datetime)
    (anomaly : bool) (mult : Q) (w w' : World) (ev : Event.t) :
  create_random_event ty asset_id product_id batch_id timestamp anomaly mult w
  = Ok (ev, w') ->
  unit_draw (rng w') = unit_draw (rng w) /\
  index_draw (rng w') = index_draw (rng w) /\
  urandom16 w' = urandom16 w /\
  urandom_reads w' = S (urandom_reads w) /\
  (anomaly = false -> cursor (rng w') = (cursor (rng w) + 5)%nat) /\
  (anomaly = true ->
   (cursor (rng w) + 11 <= cursor (rng w'))%nat /\
   (cursor (rng w') <= cursor (rng w) + 17)%nat).
Proof.
  intros Hrun.
  destruct (create_random_event_inv _ _ _ _ _ _ _ _ _ _ Hrun)
    as (l & w0 & w1 & w2 & w3 & w4 & w5
        & E0 & E1 & E2 & E3 & E4 & E5 & E6 & _).
  apply calculate_random_value_consumes in E1, E2, E3, E4.
  apply calculate_defect_probability_inv in E5
    as (_ & _ & _ & _ & _ & _ & _ & E5).
  rewrite uuid4_str_run in E6. injection E6 as _ <-.
  cbn [rng urandom16 urandom_reads].
  assert (Hsel : exists k : nat,
             w0 = Nat.iter k Random.advance w /\
             (anomaly = false -> k = 0%nat /\ l = []) /\
             (anomaly = true ->
              exists b1 b2 b3 b4 : bool,
                contains "vibration" l = b1 /\
                contains "temperature" l = b2 /\
                contains "humidity" l = b3 /\ contains "speed" l = b4 /\
                (k + (if b1 then 2 else 0) + (if b2 then 2 else 0)
                 + (if b3 then 2 else 0) + (if b4 then 2 else 0) >= 6)%nat /\
                (k + (if b1 then 2 else 0) + (if b2 then 2 else 0)
                 + (if b3 then 2 else 0) + (if b4 then 2 else 0) <= 12)%nat)).
  { destruct anomaly.
    - destruct (select_anomaly_metrics_inv _ _ _ E0)
        as (b1 & b2 & b3 & b4 & Hsel).
      destruct (b1 || b2 || b3 || b4) eqn:Hany.
      + destruct Hsel as [-> ->]. exists 4%nat.
        split; [reflexivity |]. split; [discriminate |]. intros _.
        exists b1, b2, b3, b4.
        destruct b1, b2, b3, b4; try discriminate Hany;
          (repeat split; [vm_compute; lia | vm_compute; lia]).
      + destruct Hsel as [(x & Hin & ->) ->]. exists 5%nat.
        split; [reflexivity |]. split; [discriminate |]. intros _.
        destruct Hin as [<- | [<- | [<- | [<- | []]]]];
          do 4 eexists;
          (repeat split; [vm_compute; lia | vm_compute; lia]).
    - injection E0 as <- <-. exists 0%nat.
      split; [reflexivity |]. split; [tauto | discriminate]. }
  destruct Hsel as (k & E0' & Hnormal & Hanom).
  pose proof (iter_advance_entropy k w) as (A0 & B0 & C0 & D0 & F0).
  rewrite <- E0' in A0, B0, C0, D0, F0.
  match type of E1 with
  | _ = Nat.iter ?n _ _ =>
      pose proof (iter_advance_entropy n w0) as (A1 & B1 & C1 & D1 & F1)
  end.
  rewrite <- E1 in A1, B1, C1, D1, F1.
  match type of E2 with
  | _ = Nat.iter ?n _ _ =>
      pose proof (iter_advance_entropy n w1) as (A2 & B2 & C2 & D2 & F2)
  end.
  rewrite <- E2 in A2, B2, C2, D2, F2.
  match type of E3 with
  | _ = Nat.iter ?n _ _ =>
      pose proof (iter_advance_entropy n w2) as (A3 & B3 & C3 & D3 & F3)
  end.
  rewrite <- E3 in A3, B3, C3, D3, F3.
  match type of E4 with
  | _ = Nat.iter ?n _ _ =>
      pose proof (iter_advance_entropy n w3) as (A4 & B4 & C4 & D4 & F4)
  end.
  rewrite <- E4 in A4, B4, C4, D4, F4.
  pose proof (iter_advance_entropy 1 w4) as (A5 & B5 & C5 & D5 & F5).
  change (Nat.iter 1 Random.advance w4) with (Random.advance w4)
    in A5, B5, C5, D5, F5.
  rewrite <- E5 in A5, B5, C5, D5, F5.
  clear E0 E0' E1 E2 E3 E4 E5 Hrun.
  repeat match goal with |- _ /\ _ => split end; try congruence.
  - intros ->. destruct (Hnormal eq_refl) as [-> ->].
    cbn [andb] in *. lia.
  - intros ->. destruct (Hanom eq_refl)
      as (b1 & b2 & b3 & b4 & <- & <- & <- & <- & Hlo & Hhi).
    cbn [andb] in *.
    destruct (contains "vibration" l), (contains "temperature" l),
      (contains "humidity" l), (contains "speed" l); lia.
Qed.

Lemma event_draws_consumed_witness :
  exists (ev : Event.t) (w' : World),
    create_random_event Assembly "asset-1" "product-1" "batch-1" 0%Z false 1
      (Examples.world 0.5 [] (fun _ => 0%Z)) = Ok (ev, w') /\
    cursor (rng w') = 5%nat /\ urandom_reads w' = 1%nat.
Proof.
  destruct (create_random_event Assembly "asset-1" "product-1" "batch-1" 0%Z
              false 1 (Examples.world 0.5 [] (fun _ => 0%Z)))
    as [[ev w'] | e] eqn:Hrun; [| vm_compute in Hrun; discriminate Hrun].
  destruct (event_draws_consumed _ _ _ _ _ _ _ _ _ _ Hrun)
    as (_ & _ & _ & Hreads & Hcursor & _).
  exists ev, w'. split; [reflexivity |].
  split; [exact (Hcursor eq_refl) | exact Hreads].
Defined.

End EventRecord.

(** ** More on the deviation factor and the score *)

Section Score.

Import AssetType.



(** X7: a negative DefectFactor is accepted, and then no reading scores
    0: with [Min < Max] the deviation factor of every value is positive,
    inside the nominal range as well. *)
Theorem negative_defect_factor_scores_everywhere (m : AssetMetric.t)
    (v : Q) :
  AssetMetric.DefectFactor m < 0 ->
  AssetMetric.Min m < AssetMetric.Max m ->
  exists f : Q, AssetMetric.calc_defect_factor m v = Ok f /\ 0 < f.
Proof.
  intros Hd Hmm. eexists. split.
  - apply calc_defect_factor_ok. lra.
  - assert (Hk : 0 < / - AssetMetric.DefectFactor m)
      by (apply Qinv_lt_0_compat; lra).
    assert (Ek : / AssetMetric.DefectFactor m
                 == - / - AssetMetric.DefectFactor m).
    { setoid_replace (- AssetMetric.DefectFactor m)
        with ((-1) * AssetMetric.DefectFactor m) using relation Qeq by ring.
      rewrite Qinv_mult_distr.
      setoid_replace (/ -1) with (-1) using relation Qeq by reflexivity.
      ring. }
    unfold Qdiv. rewrite Ek.
    generalize dependent (/ - AssetMetric.DefectFactor m). intros k Hk _.
    destruct (Qlt_le_dec v (AssetMetric.Max m)) as [Hlt | Hge].
    + assert (0 < (AssetMetric.Max m - v) * k)
        by (apply Qmult_lt_0_compat; lra).
      qminmax; lra.
    + assert (0 < (v - AssetMetric.Min m) * k)
        by (apply Qmult_lt_0_compat; lra).
      qminmax; lra.
Qed.

Lemma negative_defect_factor_scores_everywhere_witness :
  exists f : Q,
    AssetMetric.calc_defect_factor (AssetMetric.mk 20 40 3 (-12)) 30 = Ok f /\
    0 < f.
Proof.
  apply (negative_defect_factor_scores_everywhere
           (AssetMetric.mk 20 40 3 (-12)) 30); reflexivity.
Defined.

(** X8: readings inside their nominal ranges score exactly 0, for every
    asset type with positive DefectFactors and whatever the jitter drawn,
    inside [0.8, 1.2] or not. *)
Theorem in_range_readings_score_zero (ty : t) (v tm sp : Q) (w : World) :
  0 < AssetMetric.DefectFactor (Vibration ty) ->
  0 < AssetMetric.DefectFactor (Temperature ty) ->
  0 < AssetMetric.DefectFactor (Speed ty) ->
  Spec.within (Vibration ty) v ->
  Spec.within (Temperature ty) tm ->
  Spec.within (Speed ty) sp ->
  exists (p : Q) (w' : World),
    calculate_defect_probability ty v tm sp w = Ok (p, w') /\ p == 0.
Proof.
  intros Dv Dt Ds Iv It Is.
  assert (Nv : ~ AssetMetric.DefectFactor (Vibration ty) == 0) by lra.
  assert (Nt : ~ AssetMetric.DefectFactor (Temperature ty) == 0) by lra.
  assert (Ns : ~ AssetMetric.DefectFactor (Speed ty) == 0) by lra.
  pose proof (calculate_defect_probability_run ty v tm sp _ _ _ w
                (calc_defect_factor_ok _ _ Nv) (calc_defect_factor_ok _ _ Nt)
                (calc_defect_factor_ok _ _ Ns)) as Hrun.
  do 2 eexists. split; [exact Hrun |].
  eapply calculate_defect_probability_in_range; eassumption.
Qed.

Lemma in_range_readings_score_zero_witness :
  exists (p : Q) (w' : World),
    calculate_defect_probability Assembly 0.2 20 100
      (Examples.world 0.9 [] (fun _ => 0%Z)) = Ok (p, w') /\ p == 0.
Proof.
  apply (in_range_readings_score_zero Assembly 0.2 20 100);
    try reflexivity; split; discriminate.
Defined.

(** X9: on the same jitter the defect probability does not decrease when
    the three deviation factors do not, and it is 1 as soon as
    [0.4*vf + 0.3*tf + 0.3*sf] reaches 1.25. *)
Theorem score_monotone_saturating (ty ty' : t)
    (v tm sp v' tm' sp' vf tf sf vf' tf' sf' : Q) (w : World) :
  unit_draws_ok (rng w) ->
  AssetMetric.calc_defect_factor (Vibration ty) v = Ok vf ->
  AssetMetric.calc_defect_factor (Temperature ty) tm = Ok tf ->
  AssetMetric.calc_defect_factor (Speed ty) sp = Ok sf ->
  AssetMetric.calc_defect_factor (Vibration ty') v' = Ok vf' ->
  AssetMetric.calc_defect_factor (Temperature ty') tm' = Ok tf' ->
  AssetMetric.calc_defect_factor (Speed ty') sp' = Ok sf' ->
  vf <= vf' -> tf <= tf' -> sf <= sf' ->
  exists (p p' : Q) (w' : World),
    calculate_defect_probability ty v tm sp w = Ok (p, w') /\
    calculate_defect_probability ty' v' tm' sp' w = Ok (p', w') /\
    p <= p' /\
    (1.25 <= 0.4 * vf + 0.3 * tf + 0.3 * sf -> p == 1).
Proof.
  intros Hok Hv Ht Hs Hv' Ht' Hs' Lv Lt Ls.
  destruct (jitter_between w Hok) as [Hj0 Hj1].
  do 3 eexists.
  split;
    [exact (calculate_defect_probability_run _ _ _ _ _ _ _ w Hv Ht Hs) |].
  split;
    [exact (calculate_defect_probability_run _ _ _ _ _ _ _ w Hv' Ht' Hs') |].
  set (j := Spec.jitter w) in *.
  split.
  - assert (Hle : (vf * 0.4 + tf * 0.3 + sf * 0.3) * j
                  <= (vf' * 0.4 + tf' * 0.3 + sf' * 0.3) * j)
      by (apply Qmult_le_compat_r; lra).
    apply round2_mono in Hle. qminmax; lra.
  - intros Hsat.
    assert (Hone : 1 <= (vf * 0.4 + tf * 0.3 + sf * 0.3) * j).
    { assert (H : 1.25 * 0.8 <= (vf * 0.4 + tf * 0.3 + sf * 0.3) * j)
        by (apply Qmult_le_compat_nonneg; split; lra).
      lra. }
    apply round2_mono in Hone.
    assert (E1 : Num.round2 1 == 1) by reflexivity.
    rewrite E1 in Hone. qminmax; lra.
Qed.

Lemma score_monotone_saturating_witness :
  exists (p p' : Q) (w' : World),
    calculate_defect_probability Press 0.9 45 60
      (Examples.world 0.5 [] (fun _ => 0%Z)) = Ok (p, w') /\
    calculate_defect_probability Press 5 45 90
      (Examples.world 0.5 [] (fun _ => 0%Z)) = Ok (p', w') /\
    p <= p' /\ p' == 1.
Proof.
  assert (Hok : unit_draws_ok
                  (rng (Examples.world 0.5 [] (fun _ => 0%Z))))
    by (apply world_unit_draws_ok; [discriminate | reflexivity]).
  destruct (score_monotone_saturating Press Press 0.9 45 60 5 45 90
              _ _ _ _ _ _ (Examples.world 0.5 [] (fun _ => 0%Z))
              Hok eq_refl eq_refl eq_refl eq_refl eq_refl eq_refl)
    as (p & p' & w' & R & R' & Hle & _);
    [discriminate | discriminate | discriminate |].
  destruct (score_monotone_saturating Press Press 5 45 90 5 45 90
              _ _ _ _ _ _ (Examples.world 0.5 [] (fun _ => 0%Z))
              Hok eq_refl eq_refl eq_refl eq_refl eq_refl eq_refl)
    as (q & q' & w2 & S & _ & _ & Hsat);
    [discriminate | discriminate | discriminate |].
  rewrite R' in S. injection S as <- <-.
  exists p, p', w'. repeat split; try assumption.
  apply Hsat. discriminate.
Defined.

Lemma hundredths_plus (a b : Z) :
  Num.hundredths (a + b) == Num.hundredths a + Num.hundredths b.
Proof. unfold Num.hundredths. rewrite inject_Z_plus. ring. Qed.

Lemma hundredths_minus (a b : Z) :
  Num.hundredths (a - b) == Num.hundredths a - Num.hundredths b.
Proof.
  unfold Num.hundredths, Z.sub. rewrite inject_Z_plus, inject_Z_opp. ring.
Qed.

(** An anomalous sample whose excursion is at least a two-decimal margin
    [delta <= Min] is at least [delta] outside the range after the clamp
    and the rounding. *)
Lemma anomalous_sample_margin (m : AssetMetric.t) (lo hi dc : Z)
    (mult : Q) (w : World) :
  unit_draws_ok (rng w) ->
  AssetMetric.Min m == Num.hundredths lo ->
  AssetMetric.Max m == Num.hundredths hi ->
  Num.hundredths dc <= AssetMetric.Min m ->
  0 <= AssetMetric.Variation m -> 1 <= mult ->
  Num.hundredths dc <= AssetMetric.Variation m * 0.5 ->
  exists (v : Q) (w' : World),
    AssetMetric.calculate_random_value m true mult w = Ok (v, w') /\
    unit_draws_ok (rng w') /\
    (AssetMetric.Max m + Num.hundredths dc <= v \/
     v <= AssetMetric.Min m - Num.hundredths dc).
Proof.
  intros Hok Elo Ehi Hmin Hv Hm Hd.
  destruct (raw_value_anomalous m mult w) as [up Hraw].
  specialize (Hraw mult).
  set (u := unit_draw (rng w) (S (cursor (rng w)))) in *.
  assert (Hu : 0 <= u) by apply Hok.
  assert (Hbig : Num.hundredths dc <= Spec.excursion m u mult).
  { unfold Spec.excursion.
    assert (0 <= AssetMetric.Variation m * u)
      by (apply Qmult_le_0_compat; lra).
    assert (0 <= (AssetMetric.Variation m * 0.5
                  + AssetMetric.Variation m * u) * (mult - 1))
      by (apply Qmult_le_0_compat; lra).
    lra. }
  do 2 eexists. split; [apply calculate_random_value_run, Hraw |].
  split; [now repeat apply advance_rng_ok |].
  destruct up.
  - left.
    assert (Hstep : Num.hundredths (hi + dc)
                    <= Qmax 0 (AssetMetric.Max m + Spec.excursion m u mult)).
    { rewrite hundredths_plus. qminmax; lra. }
    apply round2_mono in Hstep.
    rewrite round2_hundredths, hundredths_plus in Hstep. lra.
  - right.
    assert (Hstep : Qmax 0 (AssetMetric.Min m - Spec.excursion m u mult)
                    <= Num.hundredths (lo - dc)).
    { rewrite hundredths_minus. qminmax; lra. }
    apply round2_mono in Hstep.
    rewrite round2_hundredths, hundredths_minus in Hstep. lra.
Qed.

(** The deviation factor times the sensitivity is the distance from the
    range. *)
Lemma calc_defect_factor_times (m : AssetMetric.t) (v : Q) :
  0 < AssetMetric.DefectFactor m ->
  exists f : Q,
    AssetMetric.calc_defect_factor m v = Ok f /\ 0 <= f /\
    f * AssetMetric.DefectFactor m == Spec.range_distance m v.
Proof.
  intros Hd.
  destruct (calc_defect_factor_distance m v Hd) as (f & Hf & Ef).
  exists f. split; [exact Hf |].
  split; [exact (calc_defect_factor_nonneg _ _ _ Hf) |].
  rewrite Ef, Qmult_comm. apply Qmult_div_r. lra.
Qed.

Lemma flagged_margin (m : AssetMetric.t) (lo hi dc : Z) (mult : Q)
    (w : World) (flag : bool) :
  unit_draws_ok (rng w) ->
  AssetMetric.Min m == Num.hundredths lo ->
  AssetMetric.Max m == Num.hundredths hi ->
  0 < Num.hundredths dc -> Num.hundredths dc <= AssetMetric.Min m ->
  AssetMetric.Min m <= AssetMetric.Max m ->
  1 <= mult ->
  Num.hundredths dc <= AssetMetric.Variation m * 0.5 ->
  exists (v : Q) (w' : World),
    AssetMetric.calculate_random_value m flag mult w = Ok (v, w') /\
    unit_draws_ok (rng w') /\
    (Spec.within m v \/
     Num.hundredths dc <= Spec.range_distance m v /\ Spec.outside m v).
Proof.
  intros Hok Elo Ehi Hd0 Hd1 Hmm Hmult Hvar.
  destruct flag.
  - destruct (anomalous_sample_margin m lo hi dc mult w)
      as (v & w' & Hrun & Hok' & Hout); try assumption; [lra |].
    exists v, w'. split; [exact Hrun |]. split; [exact Hok' |]. right.
    unfold Spec.range_distance, Spec.outside.
    destruct Hout; (split; [qminmax; lra | lra]).
  - destruct (normal_sample_within m lo hi mult w)
      as (v & w' & Hrun & Hok' & Hin); try assumption; [lra |].
    exists v, w'. tauto.
Qed.

(** X10: for an asset type of the table and a multiplier of at least 1,
    the score of a returned event tells whether a scored reading left its
    range: if Vibration, Temperature and Speed are inside their ranges the
    defect probability is 0; otherwise it is at least 0.02. *)
Theorem table_event_score (name : string) (ty : t)
    (asset_id product_id batch_id : string) (timestamp : datetime)
    (anomaly : bool) (mult : Q) (w : World) :
  get_types !! name = Some ty ->
  unit_draws_ok (rng w) ->
  1 <= mult ->
  exists (ev : Event.t) (w' : World),
    create_random_event ty asset_id product_id batch_id timestamp anomaly
      mult w
    = Ok (ev, w') /\
    (Spec.within (Vibration ty) (Event.Vibration ev) /\
     Spec.within (Temperature ty) (Event.Temperature ev) /\
     Spec.within (Speed ty) (Event.Speed ev) /\
     Event.DefectProbability ev == 0
     \/
     (Spec.outside (Vibration ty) (Event.Vibration ev) \/
      Spec.outside (Temperature ty) (Event.Temperature ev) \/
      Spec.outside (Speed ty) (Event.Speed ev)) /\
     0.02 <= Event.DefectProbability ev).
Proof.
  intros Hty Hok Hmult.
  destruct (catalog_metric_shape _ _ (Vibration ty) Hty)
    as (Lv & Uv & _); [cbn; tauto |].
  destruct (catalog_metric_shape _ _ (Temperature ty) Hty)
    as (Lt & Ut & _); [cbn; tauto |].
  destruct (catalog_metric_shape _ _ (Speed ty) Hty)
    as (Ls & Us & _); [cbn; tauto |].
  assert (Facts :
            (Num.hundredths 4 <= AssetMetric.Min (Vibration ty) /\
             AssetMetric.Min (Vibration ty) <= AssetMetric.Max (Vibration ty) /\
             Num.hundredths 4 <= AssetMetric.Variation (Vibration ty) * 0.5 /\
             AssetMetric.DefectFactor (Vibration ty) == 0.5) /\
            (Num.hundredths 100 <= AssetMetric.Min (Temperature ty) /\
             AssetMetric.Min (Temperature ty)
             <= AssetMetric.Max (Temperature ty) /\
             Num.hundredths 100
             <= AssetMetric.Variation (Temperature ty) * 0.5 /\
             0 < AssetMetric.DefectFactor (Temperature ty) /\
             AssetMetric.DefectFactor (Temperature ty) <= 15) /\
            (Num.hundredths 400 <= AssetMetric.Min (Speed ty) /\
             AssetMetric.Min (Speed ty) <= AssetMetric.Max (Speed ty) /\
             Num.hundredths 400 <= AssetMetric.Variation (Speed ty) * 0.5 /\
             AssetMetric.DefectFactor (Speed ty) == 20)).
  { destruct (get_types_cases _ _ Hty) as [-> | [-> | [-> | ->]]];
      repeat match goal with |- _ /\ _ => split end;
      first [reflexivity | discriminate]. }
  destruct Facts as ((Mv & Rv & Vv & Dv) & (Mt & Rt & Vt & Dt0 & Dt)
                     & (Ms & Rs & Vs & Ds)).
  destruct (select_anomaly_metrics_run anomaly w) as (l & w0 & Hsel & Hok0 & _).
  specialize (Hok0 Hok).
  destruct (flagged_margin (Vibration ty) _ _ 4 mult w0
              (anomaly && contains "vibration" l) Hok0 Lv Uv
              ltac:(reflexivity) Mv Rv Hmult Vv)
    as (v1 & w1 & R1 & Hok1 & C1).
  destruct (flagged_margin (Temperature ty) _ _ 100 mult w1
              (anomaly && contains "temperature" l) Hok1 Lt Ut
              ltac:(reflexivity) Mt Rt Hmult Vt)
    as (v2 & w2 & R2 & Hok2 & C2).
  destruct (calculate_random_value_total (Humidity ty)
              (anomaly && contains "humidity" l) mult w2)
    as (v3 & w3 & R3 & Hok3).
  specialize (Hok3 Hok2).
  destruct (flagged_margin (Speed ty) _ _ 400 mult w3
              (anomaly && contains "speed" l) Hok3 Ls Us
              ltac:(reflexivity) Ms Rs Hmult Vs)
    as (v4 & w4 & R4 & Hok4 & C4).
  assert (Pv : 0 < AssetMetric.DefectFactor (Vibration ty))
    by (rewrite Dv; reflexivity).
  assert (Ps : 0 < AssetMetric.DefectFactor (Speed ty))
    by (rewrite Ds; reflexivity).
  destruct (calc_defect_factor_times (Vibration ty) v1 Pv)
    as (fv & Hv & Nv & Ev).
  destruct (calc_defect_factor_times (Temperature ty) v2 Dt0)
    as (ft & Ht & Nt & Et).
  destruct (calc_defect_factor_times (Speed ty) v4 Ps)
    as (fs & Hs & Ns & Es).
  pose proof (calculate_defect_probability_run ty v1 v2 v4 _ _ _ w4
                Hv Ht Hs) as R5.
  unfold create_random_event.
  rewrite (bind_run _ _ _ _ _ Hsel), (bind_run _ _ _ _ _ R1),
    (bind_run _ _ _ _ _ R2), (bind_run _ _ _ _ _ R3),
    (bind_run _ _ _ _ _ R4), (bind_run _ _ _ _ _ R5),
    (bind_run _ _ _ _ _ (uuid4_str_run _)).
  do 2 eexists. split; [reflexivity |].
  cbn [Event.Vibration Event.Temperature Event.Humidity Event.Speed
       Event.DefectProbability].
  destruct (jitter_between w4 Hok4) as [Hj0 Hj1].
  set (j := Spec.jitter w4) in *.
  rewrite Dv in Ev. rewrite Ds in Es.
  assert (Tt : 0 <= ft * (15 - AssetMetric.DefectFactor (Temperature ty)))
    by (apply Qmult_le_0_compat; lra).
  assert (Bounds :
            forall sum : Q,
              0.02 <= sum -> 0.02 <= Qmin (Num.round2 (sum * j)) 1).
  { intros sum Hsum.
    assert (H : 0.02 * 0.8 <= sum * j)
      by (apply Qmult_le_compat_nonneg; split; lra).
    apply round2_mono in H.
    assert (E : Num.round2 (0.02 * 0.8) == 0.02) by reflexivity.
    rewrite E in H. qminmax; lra. }
  assert (H4 : Num.hundredths 4 == 0.04) by reflexivity.
  assert (H100 : Num.hundredths 100 == 1) by reflexivity.
  assert (H400 : Num.hundredths 400 == 4) by reflexivity.
  rewrite H4 in C1. rewrite H100 in C2. rewrite H400 in C4.
  destruct C1 as [I1 | [M1 O1]]; [| right; split; [tauto | apply Bounds; lra]].
  destruct C2 as [I2 | [M2 O2]]; [| right; split; [tauto | apply Bounds; lra]].
  destruct C4 as [I4 | [M4 O4]]; [| right; split; [tauto | apply Bounds; lra]].
  left. repeat split; try apply I1; try apply I2; try apply I4.
  eapply calculate_defect_probability_in_range; eassumption.
Qed.

Lemma table_event_score_witness :
  exists (ev : Event.t) (w' : World),
    create_random_event Conveyor "asset-1" "product-1" "batch-1" 0%Z true 1
      (Examples.world 0.5 [] (fun _ => 0%Z)) = Ok (ev, w') /\
    0.02 <= Event.DefectProbability ev.
Proof.
  destruct (table_event_score "Conveyor" Conveyor "asset-1" "product-1"
              "batch-1" 0%Z true 1 (Examples.world 0.5 [] (fun _ => 0%Z)))
    as (ev & w' & Hrun & Hscore).
  - reflexivity.
  - apply world_unit_draws_ok; [discriminate | reflexivity].
  - discriminate.
  - exists ev, w'. split; [exact Hrun |].
    destruct Hscore as [(_ & _ & _ & Hzero) | [_ Hpos]]; [| exact Hpos].
    exfalso. vm_compute in Hrun. injection Hrun as <- _.
    discriminate Hzero.
Defined.

End Score.

(** ** Token replacement *)

Section Tokens.

Import FabricDataAgent.

Lemma startswith_spec (s old : Py.str) :
  Py.startswith s old = true <-> exists b : Py.str, s = old ++ b.
Proof.
  revert s. induction old as [| o old IH]; intros s.
  - cbn. split; [intros _; now exists s | reflexivity].
  - destruct s as [| c s]; cbn.
    + split; [discriminate | intros [b Hb]; discriminate Hb].
    + rewrite andb_true_iff, N.eqb_eq, IH. split.
      * intros [-> [b ->]]. now exists b.
      * intros [b [= -> ->]]. split; [reflexivity | now exists b].
Qed.

Lemma replace_from_absent (old new s : Py.str) :
  old <> [] -> ~ Py.occurs old s -> Py.replace_from old new 0 s = s.
Proof.
  intros Hne. induction s as [| c s IH]; intros Habs; [reflexivity |].
  cbn [Py.replace_from].
  destruct (Py.startswith (c :: s) old) eqn:Hpre.
  - exfalso. apply Habs. apply startswith_spec in Hpre as [b Hb].
    exists [], b. exact Hb.
  - f_equal. apply IH. intros (a & b & ->). apply Habs.
    now exists (c :: a), b.
Qed.

Lemma replace_absent (s old new : Py.str) :
  ~ Py.occurs old s -> Py.replace s old new = s.
Proof.
  intros Habs. destruct old as [| o old].
  - exfalso. apply Habs. now exists [], s.
  - apply replace_from_absent; [discriminate | exact Habs].
Qed.

(** X11: when no key of [tokens] occurs in [content], the content is
    returned unchanged. *)
Theorem replace_tokens_absent (content : Py.str)
    (tokens : list (Py.str * TokenValue)) :
  (forall item : Py.str * TokenValue,
      In item tokens -> ~ Py.occurs (fst item) content) ->
  replace_tokens_in_content content tokens = content.
Proof.
  unfold replace_tokens_in_content.
  induction tokens as [| item tokens IH]; intros Habs; [reflexivity |].
  cbn [fold_left].
  rewrite replace_absent by (apply Habs; now left).
  apply IH. intros item' Hin. apply Habs. now right.
Qed.

Lemma replace_tokens_absent_witness :
  replace_tokens_in_content (Py.lit "{}")
    [(Py.lit "__AGENT_ID__", VStr (Py.lit "42"))]
  = Py.lit "{}".
Proof.
  apply replace_tokens_absent.
  intros item [<- | []] (a & b & H).
  destruct a as [| x [| y [| z a]]]; discriminate H.
Defined.

Lemma replace_from_skip (old new x b : Py.str) :
  Py.replace_from old new (length x) (x ++ b) = Py.replace_from old new 0 b.
Proof.
  induction x as [| c x IH]; [reflexivity |]. exact IH.
Qed.

Lemma removelast_snoc (tok : Py.str) :
  tok <> [] -> exists c : N, tok = removelast tok ++ [c].
Proof.
  intros Hne. exists (List.last tok 0%N). now apply app_removelast_last.
Qed.

(** X12: a single token is replaced from the left.  When [content] is
    [a ++ token ++ b] and this is the first occurrence of the non-empty
    token, the result is [a], the inserted text, and the result for
    [b]. *)
Theorem replace_tokens_first_occurrence (a b token : Py.str)
    (value : TokenValue) :
  token <> [] ->
  ~ Py.occurs token (a ++ removelast token) ->
  replace_tokens_in_content (a ++ token ++ b) [(token, value)]
  = a ++ escaped_value value
      ++ replace_tokens_in_content b [(token, value)].
Proof.
  intros Hne Hfirst.
  unfold replace_tokens_in_content. cbn [fold_left fst snd].
  destruct token as [| t token]; [contradiction |].
  unfold Py.replace.
  set (tok := t :: token) in *. set (new := escaped_value value).
  induction a as [| c a IH].
  - cbn [app]. unfold tok at 2. cbn [app Py.replace_from].
    assert (Hpre : Py.startswith (t :: token ++ b) tok = true)
      by (apply startswith_spec; now exists b).
    rewrite Hpre. f_equal.
    replace (length tok - 1)%nat with (length token)
      by (unfold tok; cbn [length]; lia).
    apply replace_from_skip.
  - cbn [app Py.replace_from].
    destruct (Py.startswith (c :: a ++ tok ++ b) tok) eqn:Hpre.
    + exfalso. apply Hfirst.
      apply startswith_spec in Hpre as [r Hr].
      destruct (removelast_snoc tok Hne) as [z Hz].
      exists [], (drop (length tok) ((c :: a) ++ removelast tok)).
      cbn [app].
      assert (Hlen : (length tok <= length ((c :: a) ++ removelast tok))%nat).
      { rewrite length_app. rewrite Hz at 1. rewrite length_app.
        cbn [length]. lia. }
      assert (Htake : take (length tok) ((c :: a) ++ removelast tok) = tok).
      { assert (H1 : take (length tok) (((c :: a) ++ removelast tok)
                                         ++ [z] ++ b) = tok).
        { rewrite <- app_assoc. rewrite (app_assoc (removelast tok)).
          rewrite <- Hz. change ((c :: a) ++ tok ++ b)
            with (c :: a ++ tok ++ b).
          rewrite Hr. now rewrite take_app_length. }
        now rewrite take_app_le in H1 by exact Hlen. }
      transitivity (take (length tok) ((c :: a) ++ removelast tok)
                    ++ drop (length tok) ((c :: a) ++ removelast tok));
        [symmetry; apply take_drop | now rewrite Htake].
    + cbn [app]. f_equal. apply IH.
      intros (x & y & Hxy). apply Hfirst. exists (c :: x), y.
      cbn [app]. now rewrite Hxy.
Qed.

Lemma replace_tokens_first_occurrence_witness :
  replace_tokens_in_content
    (Py.lit "id=" ++ Py.lit "__ID__" ++ Py.lit ";")
    [(Py.lit "__ID__", VOther (Py.lit "7"))]
  = Py.lit "id=" ++ Py.lit "7"
      ++ replace_tokens_in_content (Py.lit ";")
           [(Py.lit "__ID__", VOther (Py.lit "7"))].
Proof.
  apply (replace_tokens_first_occurrence (Py.lit "id=") (Py.lit ";")
           (Py.lit "__ID__") (VOther (Py.lit "7"))).
  - discriminate.
  - intros (a & b & H).
    destruct a as [| x0 [| x1 [| x2 a]]]; try discriminate H.
    apply (f_equal (@length N)) in H.
    rewrite !length_app in H. cbn in H. lia.
Defined.

(** *** Escaping *)

Lemma escaped_value_str (s : Py.str) :
  escaped_value (VStr s) = concat (map Py.escape_char s).
Proof.
  unfold escaped_value, Py.json_dumps_str, Py.slice_1_m1.
  cbn [app tl]. apply removelast_last.
Qed.

Lemma hex_digit_cases (d : N) :
  (d < 16)%N ->
  Py.is_hex (Py.hex_digit d) = true /\
  (32 <= Py.hex_digit d <= 126)%N.
Proof.
  intros Hd. unfold Py.hex_digit.
  assert (Hn : (N.to_nat d < 16)%nat) by lia.
  generalize dependent (N.to_nat d). intros k Hk.
  do 16 (destruct k as [| k]; [cbn; split; [reflexivity | lia] |]). lia.
Qed.

Lemma hex4_scan (n : N) (rest : Py.str) :
  Py.json_string_body_from (Py.Hex 4) (Py.hex4 n ++ rest)
  = Py.json_string_body_from Py.Plain rest.
Proof.
  unfold Py.hex4. cbn [app Py.json_string_body_from].
  rewrite !(proj1 (hex_digit_cases _ (N.mod_lt _ 16 ltac:(discriminate)))).
  reflexivity.
Qed.

Lemma hex4_printable (n : N) :
  Forall (fun c : N => (32 <= c <= 126)%N) (Py.hex4 n).
Proof.
  unfold Py.hex4.
  repeat constructor;
    apply (hex_digit_cases _ (N.mod_lt _ 16 ltac:(discriminate))).
Qed.

Lemma escape_char_scan (c : N) (rest : Py.str) :
  Py.json_string_body_from Py.Plain (Py.escape_char c ++ rest)
  = Py.json_string_body_from Py.Plain rest.
Proof.
  escape_char_cases c; try reflexivity.
  - cbn [app Py.json_string_body_from].
    destruct (N.eqb_spec c 92); [contradiction |].
    destruct (N.eqb_spec c 34); [contradiction |].
    destruct (N.ltb_spec c 32); [lia | reflexivity].
  - change (Py.lit "\u" ++ Py.hex4 c) with (92%N :: 117%N :: Py.hex4 c).
    cbn [app]. change (Py.json_string_body_from Py.Plain
                         (92%N :: 117%N :: Py.hex4 c ++ rest))
      with (Py.json_string_body_from (Py.Hex 4) (Py.hex4 c ++ rest)).
    apply hex4_scan.
  - match goal with
    | |- context [Py.hex4 ?a ++ Py.lit "\u" ++ Py.hex4 ?b] =>
        set (s1 := a); set (s2 := b)
    end.
    change (Py.json_string_body_from Py.Plain
              ((Py.lit "\u" ++ Py.hex4 s1 ++ Py.lit "\u" ++ Py.hex4 s2)
               ++ rest))
      with (Py.json_string_body_from (Py.Hex 4)
              (Py.hex4 s1 ++ (92%N :: 117%N :: Py.hex4 s2 ++ rest))).
    rewrite hex4_scan.
    change (Py.json_string_body_from Py.Plain
              (92%N :: 117%N :: Py.hex4 s2 ++ rest))
      with (Py.json_string_body_from (Py.Hex 4) (Py.hex4 s2 ++ rest)).
    apply hex4_scan.
  - change (Py.lit "\u" ++ Py.hex4 c) with (92%N :: 117%N :: Py.hex4 c).
    cbn [app]. change (Py.json_string_body_from Py.Plain
                         (92%N :: 117%N :: Py.hex4 c ++ rest))
      with (Py.json_string_body_from (Py.Hex 4) (Py.hex4 c ++ rest)).
    apply hex4_scan.
  - match goal with
    | |- context [Py.hex4 ?a ++ Py.lit "\u" ++ Py.hex4 ?b] =>
        set (s1 := a); set (s2 := b)
    end.
    change (Py.json_string_body_from Py.Plain
              ((Py.lit "\u" ++ Py.hex4 s1 ++ Py.lit "\u" ++ Py.hex4 s2)
               ++ rest))
      with (Py.json_string_body_from (Py.Hex 4)
              (Py.hex4 s1 ++ (92%N :: 117%N :: Py.hex4 s2 ++ rest))).
    rewrite hex4_scan.
    change (Py.json_string_body_from Py.Plain
              (92%N :: 117%N :: Py.hex4 s2 ++ rest))
      with (Py.json_string_body_from (Py.Hex 4) (Py.hex4 s2 ++ rest)).
    apply hex4_scan.
Qed.

Lemma escape_char_printable (c : N) :
  Forall (fun x : N => (32 <= x <= 126)%N) (Py.escape_char c).
Proof.
  escape_char_cases c;
    try (repeat constructor; lia);
    repeat (apply Forall_app; split);
    try apply hex4_printable; repeat constructor; cbn; lia.
Qed.

(** X13: the text inserted for a string value is made of printable ASCII
    characters only and reads as the inside of a JSON string: it has no
    bare quote, backslash or control character, and every backslash
    starts a JSON escape. *)
Theorem escaped_value_is_json_string_body (s : Py.str) :
  Py.json_string_body (escaped_value (VStr s)) = true /\
  Forall (fun c : N => (32 <= c <= 126)%N) (escaped_value (VStr s)).
Proof.
  rewrite escaped_value_str. unfold Py.json_string_body. split.
  - induction s as [| c s IH]; [reflexivity |].
    cbn [map concat]. now rewrite escape_char_scan.
  - induction s as [| c s IH]; [constructor |].
    cbn [map concat]. apply Forall_app. split; [| exact IH].
    apply escape_char_printable.
Qed.

(** X14: a string value made of printable ASCII characters other than
    the quote and the backslash, such as an identifier, is inserted as it
    is. *)
Theorem escaped_value_plain (s : Py.str) :
  Forall (fun c : N => (32 <= c <= 126)%N /\ c <> 34%N /\ c <> 92%N) s ->
  escaped_value (VStr s) = s.
Proof.
  rewrite escaped_value_str.
  induction 1 as [| c s (Hc & Nq & Nb) _ IH]; [reflexivity |].
  cbn [map concat]. rewrite IH.
  unfold Py.escape_char.
  destruct (N.eqb_spec c 92); [contradiction |].
  destruct (N.eqb_spec c 34); [contradiction |].
  destruct (N.eqb_spec c 8); [lia |].
  destruct (N.eqb_spec c 12); [lia |].
  destruct (N.eqb_spec c 10); [lia |].
  destruct (N.eqb_spec c 13); [lia |].
  destruct (N.eqb_spec c 9); [lia |].
  destruct (N.leb_spec 32 c); [| lia].
  destruct (N.leb_spec c 126); [| lia].
  reflexivity.
Qed.

Lemma escaped_value_plain_witness :
  escaped_value (VStr (Py.lit "12345678-abcd")) = Py.lit "12345678-abcd".
Proof.
  apply escaped_value_plain.
  repeat constructor; cbn; lia || discriminate.
Defined.

End Tokens.

(** ** [Asset.to_dict] *)

Section AssetDict.

(** X15: the dictionary of an asset has exactly the six keys Id, Name,
    SiteId, Type, SerialNumber and MaintenanceStatus, and two assets with
    the same dictionary are the same asset: no field is dropped or
    overwritten. *)
Theorem to_dict_keys_injective (a b : Asset.t) :
  dom (Asset.to_dict a)
  = ({["Id"; "Name"; "SiteId"; "Type"; "SerialNumber";
       "MaintenanceStatus"]}%string : gset string) /\
  (Asset.to_dict a = Asset.to_dict b -> a = b).
Proof.
  split.
  - unfold Asset.to_dict. rewrite dom_list_to_map_L. cbn. set_solver.
  - intros H.
    pose proof (f_equal (fun d => d !! "Id"%string) H) as H1.
    pose proof (f_equal (fun d => d !! "Name"%string) H) as H2.
    pose proof (f_equal (fun d => d !! "SiteId"%string) H) as H3.
    pose proof (f_equal (fun d => d !! "Type"%string) H) as H4.
    pose proof (f_equal (fun d => d !! "SerialNumber"%string) H) as H5.
    pose proof (f_equal (fun d => d !! "MaintenanceStatus"%string) H) as H6.
    vm_compute in H1, H2, H3, H4, H5, H6.
    destruct a, b. cbn in *. congruence.
Qed.

Lemma to_dict_keys_injective_witness :
  dom (Asset.to_dict
         (Asset.mk "a1" 7 "Robotic Arm" "Assembly" "SN-1" "Operational"))
  = ({["Id"; "Name"; "SiteId"; "Type"; "SerialNumber";
       "MaintenanceStatus"]}%string : gset string).
Proof.
  exact (proj1 (to_dict_keys_injective
                  (Asset.mk "a1" 7 "Robotic Arm" "Assembly" "SN-1"
                     "Operational")
                  (Asset.mk "a2" 8 "Conveyor Belt" "Conveyor" "SN-2"
                     "Maintenance"))).
Defined.

End AssetDict.

(** ** The provisioning scripts *)

Section Provisioning.

Import Fabric.

Context {S : Type} (api : Api S) (out : Stdout S).

(** X16: [setup_workspace] first looks the workspace up and creates it
    only when the lookup finds nothing.  It returns the workspace
    identifier only after assigning the workspace to the capacity that
    was found, as its last call; it returns [None] exactly when the
    capacity lookup finds nothing, and then no assignment is made, also
    when the workspace has just been created. *)
Theorem setup_workspace_assignment (capacity_name workspace_name : Py.str)
    (s s' : S) (r : Outcome (option Py.str)) (log : list Call) :
  setup_workspace api capacity_name workspace_name (s, []) = (r, (s', log)) ->
  (exists rest : list Call, log = GetWorkspace workspace_name :: rest) /\
  (forall (x : option Dict) (s1 : S),
      get_workspace api workspace_name s = (Returned x, s1) ->
      truthy x = true ->
      ~ In (CreateWorkspace workspace_name) log) /\
  (forall id : Py.str,
      r = Returned (Some id) ->
      exists (capacity_id : Py.str) (before : list Call),
        log = before ++ [GetCapacity capacity_name;
                         AssignToCapacity id capacity_id]) /\
  (r = Returned None ->
   (exists before : list Call, log = before ++ [GetCapacity capacity_name]) /\
   forall w c : Py.str, ~ In (AssignToCapacity w c) log).
Proof.
  intros H.
  unfold setup_workspace, bind, try_except, call, lift, ret, raise in H.
  script_cases H;
    apply pair_equal_spec in H as [Hr Hst];
    apply pair_equal_spec in Hst as [Hs Hl]; subst r s' log;
    (split; [eexists; reflexivity |]);
    (split;
     [intros x ? Hx Ht; try discriminate Hx;
      apply pair_equal_spec in Hx as [Hx _]; injection Hx as <-;
      first [congruence | cbn; intuition discriminate] |]);
    (split;
     [intros id Hid; try discriminate Hid; injection Hid as <-;
      eexists;
      first [ exists [GetWorkspace workspace_name]; reflexivity
            | exists [GetWorkspace workspace_name;
                      CreateWorkspace workspace_name]; reflexivity
            | exists [GetWorkspace workspace_name;
                      CreateWorkspace workspace_name;
                      GetWorkspace workspace_name]; reflexivity ] |]);
    (intros Hnone;
     first
       [ discriminate Hnone
       | split;
         [ first [ exists [GetWorkspace workspace_name]; reflexivity
                 | exists [GetWorkspace workspace_name;
                           CreateWorkspace workspace_name]; reflexivity
                 | exists [GetWorkspace workspace_name;
                           CreateWorkspace workspace_name;
                           GetWorkspace workspace_name]; reflexivity ]
         | intros w c; cbn; intuition discriminate ] ]).
Qed.



End Provisioning.

Section ProvisioningExamples.

Import Fabric.

Lemma setup_workspace_assignment_witness :
  (exists before : list Call,
      [GetWorkspace (Py.lit "ws"); CreateWorkspace (Py.lit "ws");
       GetCapacity (Py.lit "cap")]
      = before ++ [GetCapacity (Py.lit "cap")]) /\
  ~ In (AssignToCapacity (Py.lit "new") (Py.lit "cap"))
      [GetWorkspace (Py.lit "ws"); CreateWorkspace (Py.lit "ws");
       GetCapacity (Py.lit "cap")].
Proof.
  destruct (setup_workspace_assignment empty_platform (Py.lit "cap")
              (Py.lit "ws") 0%nat 3%nat (Returned None) _ eq_refl)
    as (_ & _ & _ & Hnone).
  destruct (Hnone eq_refl) as [Hlast Hnever].
  split; [exact Hlast | apply Hnever].
Defined.



(** On a standard output that raises, the first [print] ends either
    script with that exception, before any call. *)
Lemma setup_folder_first_print_raises :
  setup_folder empty_platform strict_stdout (Py.lit "f") None (0%nat, [])
  = (Raised OtherException, (0%nat, [])).
Proof. reflexivity. Qed.

Lemma setup_environment_first_print_raises :
  setup_environment empty_platform strict_stdout (Py.lit "e") None None None
    (0%nat, [])
  = (Raised OtherException, (0%nat, [])).
Proof. reflexivity. Qed.

End ProvisioningExamples.
